(** * Template and clone support of the hcsshim runtime shim

    A shallow embedding of four Go sources:
    - [internal/clone] (registry persistence of template configurations),
    - [internal/uvm/clone.go] (template configuration assembly, save as template),
    - [internal/hcsoci/network.go] (network namespace setup),
    - [cmd/containerd-shim-runhcs-v1/clone.go] (the save-as-template sequence).

    Go functions become functions in a small state monad whose outcome is
    either a returned value or a run-time panic.  A Go [error] value is a
    member of [error]; a possibly nil one is an [option error]. *)

From Stdlib Require Import ZArith NArith Lia.
From Stdlib.Strings Require Import Byte Ascii String.
From stdpp Require Import base option list strings gmap.

Local Open Scope string_scope.
Local Open Scope list_scope.

(** ** Go run-time values *)

(** Non-nil values of Go's [error] interface that occur in these packages. *)
Inductive error : Type :=
| NotFoundError (id : string)              (* *regstate.NotFoundError *)
| NoStateError (id key : string)           (* *regstate.NoStateError *)
| ErrorString (msg : string)               (* errors.New, fmt.Errorf *)
| WithMessage (cause : error) (msg : string). (* errors.Wrap(cause, msg) *)

(** How a call ends: it returns, or the goroutine panics. *)
Inductive outcome (A : Type) : Type :=
| Returned (a : A)
| Panicked (msg : string).
Arguments Returned {A} a.
Arguments Panicked {A} msg.

(** A function returning [(T, error)]. *)
Inductive result (T : Type) : Type :=
| Ok (v : T)
| Err (e : error).
Arguments Ok {T} v.
Arguments Err {T} e.

Definition err_of {T} (r : result T) : option error :=
  match r with Ok _ => None | Err e => Some e end.

(** The state monad of a Go call over a state [S].  A panic keeps the state
    reached so far: nothing is rolled back. *)
Definition Go (S A : Type) : Type := S -> outcome A * S.

Definition ret {S A} (a : A) : Go S A := fun s => (Returned a, s).

Definition bind {S A B} (c : Go S A) (k : A -> Go S B) : Go S B :=
  fun s => match c s with
           | (Returned a, s') => k a s'
           | (Panicked m, s') => (Panicked m, s')
           end.

Definition panic {S A} (msg : string) : Go S A := fun s => (Panicked msg, s).

Definition get {S} : Go S S := fun s => (Returned s, s).
Definition modify {S} (f : S -> S) : Go S unit := fun s => (Returned tt, f s).

(** Runs a computation over a component of the state. *)
Definition zoom {S T A} (proj : S -> T) (upd : T -> S -> S) (c : Go T A) : Go S A :=
  fun s => let '(o, t) := c (proj s) in (o, upd t s).

Declare Scope go_scope.
Delimit Scope go_scope with go.
Notation "'let*' x := c 'in' k" := (bind c (fun x => k))
  (at level 10, x pattern, c at level 100, k at level 200) : go_scope.
Local Open Scope go_scope.

(** [err.Error()].  The texts of the two regstate errors are not part of the
    sources at hand; the ones of [ErrorString] and [WithMessage] are those of
    [fmt.Errorf] and [errors.Wrap]. *)
Fixpoint Error (e : error) : string :=
  match e with
  | NotFoundError id => "ID '" +:+ id +:+ "' was not found"
  | NoStateError id key => "state '" +:+ key +:+ "' is not present for ID '" +:+ id +:+ "'"
  | ErrorString msg => msg
  | WithMessage cause msg => msg +:+ ": " +:+ Error cause
  end.

(** A method call on an interface value: on the nil interface the run time
    panics with a nil pointer dereference. *)
Definition nil_dereference : string :=
  "runtime error: invalid memory address or nil pointer dereference".

Definition call_Error {S} (err : option error) : Go S string :=
  match err with
  | Some e => ret (Error e)
  | None => panic nil_dereference
  end.

Definition errors_Wrap (err : error) (msg : string) : error := WithMessage err msg.

(** A Go map with string keys is a finite map.  [for _, v := range m] goes
    over every entry of the map once, in an order of the keys that the run
    time picks anew for each loop: [keys] is the order it picks, and
    [range_values m keys] are the values that the loop then sees. *)
Definition range_values {V} (m : gmap string V) (keys : list string) : list V :=
  omap (fun k => m !! k) keys.

(** The orders that a loop over [m] can take: every key of [m] once. *)
Definition key_order {V} (m : gmap string V) (keys : list string) : Prop :=
  keys ≡ₚ (map_to_list m).*1.

#[global] Instance key_order_dec {V} (m : gmap string V) (keys : list string) :
  Decision (key_order m keys).
Proof. unfold key_order. apply _. Defined.

(** ** hns and hcn: the host networking provider *)

Module hns.

(** Modelled from the spec: the endpoint object of the provider, which
    "carries a mutable namespace-reference field" (the declarations of
    [HNSEndpoint] and [Namespace] are not part of the sources at hand). *)
Record Namespace : Type := mkNamespace { ID : string }.

Record HNSEndpoint : Type := mkHNSEndpoint {
  ep_Id : string;
  ep_Name : string;
  ep_Namespace : option Namespace }.

(** The reserved identifier of the namespace inside every template and
    clone.  Its value is declared outside the sources at hand. *)
Class Constants : Type := {
  CLONING_DEFAULT_NETWORK_NAMESPACE_ID : string }.

End hns.

Module hcn.

(** Modelled from the spec: the namespace object of the provider, of which
    the code reads and writes the identifier only. *)
Record HostComputeNamespace : Type := mkHostComputeNamespace {
  Id : string;
  NamespaceId : N }.

End hcn.

(** ** internal/uvm *)

Module uvm.

(** Modelled from the spec: the exported fields of the two resource types
    registered with the codec (their declarations, [vsmb.go] and [scsi.go],
    are not part of the sources at hand).  The spec gives them "paths, flags,
    controller/location numbers". *)
Record VSMBShare : Type := mkVSMBShare {
  vsmb_HostPath : string;
  vsmb_ReadOnly : bool }.

Record SCSIMount : Type := mkSCSIMount {
  scsi_HostPath : string;
  scsi_UVMPath : string;
  scsi_Controller : Z;
  scsi_LUN : Z }.

(** A non-nil value of the interface [Cloneable]: a pointer to one of the
    two implementing structs. *)
Inductive Cloneable : Type :=
| PtrVSMBShare (s : VSMBShare)
| PtrSCSIMount (m : SCSIMount).

Record UVMTemplateConfig : Type := mkUVMTemplateConfig {
  UVMID : string;
  Resources : list Cloneable }.

(** The double quote character, for string constants that contain it. *)
Definition dq : string := String (ascii_of_nat 34) EmptyString.

Definition hcsSaveOptions : string :=
  "{" +:+ dq +:+ "SaveType" +:+ dq +:+ ": " +:+ dq +:+ "AsTemplate" +:+ dq +:+ "}".

(** Calls that leave these packages, as they appear in a run's trace. *)
Inductive call : Type :=
| hns_GetNamespaceEndpoints (netNS : string)
| hns_GetHNSEndpointByID (id : string)
| hcn_GetNamespaceByID (nsid : string)
| AddNetNSRaw (ns : hcn.HostComputeNamespace)
| AddEndpointsToNS (nsid : string) (endpoints : list hns.HNSEndpoint)
| RemoveNetNS (nsid : string)
| RemoveAllNICs
| CloseGCSConnection
| hcsSystem_Pause
| hcsSystem_Save (options : string)
| clone_SaveTemplateConfig (utc : UVMTemplateConfig)
| log_Warn (e : error).

(** How a call in the trace ended, with the value it returned where a later
    step uses it. *)
Inductive reply : Type :=
| Succeeded
| Failed (e : error)
| Crashed (msg : string)
| GotIds (ids : list string)
| GotEndpoint (ep : hns.HNSEndpoint)
| GotNamespace (ns : hcn.HostComputeNamespace).

Abbreviation entry := (call * reply)%type.

Definition reply_of_error (err : option error) : reply :=
  match err with None => Succeeded | Some e => Failed e end.

Definition reply_of_result {A} (got : A -> reply) (r : result A) : reply :=
  match r with Ok v => got v | Err e => Failed e end.

Definition reply_of_outcome (o : outcome (option error)) : reply :=
  match o with Returned err => reply_of_error err | Panicked msg => Crashed msg end.

(** The surface of [UtilityVM], of the compute system behind it and of the
    networking provider that these sources use but do not define.  [W] is
    the state of the host: the guest, its compute system and the provider.
    The two share inventories are maps from a host path to a share, the
    third is an array of controllers, each an array of slots (their
    declarations are not part of the sources at hand); a nil pointer is
    [None]. *)
Class Host (W : Type) : Type := {
  ID : W -> string;
  vsmbDirShares : W -> gmap string (option VSMBShare);
  vsmbFileShares : W -> gmap string (option VSMBShare);
  scsiLocations : W -> list (list (option SCSIMount));
  host_RemoveAllNICs : W -> option error * W;
  host_CloseGCSConnection : W -> option error * W;
  host_Pause : W -> option error * W;
  host_Save : string -> W -> option error * W;
  host_AddNetNSRaw : hcn.HostComputeNamespace -> W -> option error * W;
  host_AddEndpointsToNS : string -> list hns.HNSEndpoint -> W -> option error * W;
  host_RemoveNetNS : string -> W -> option error * W;
  host_GetNamespaceEndpoints : string -> W -> result (list string) * W;
  host_GetHNSEndpointByID : string -> W -> result hns.HNSEndpoint * W;
  host_GetNamespaceByID : string -> W -> result hcn.HostComputeNamespace * W }.

(** The key orders of the two loops over the share maps in one call of
    [GenerateTemplateConfig]. *)
Record share_order : Type := mkShareOrder {
  dir_keys : list string;
  file_keys : list string }.

(** A host together with the trace of the calls made so far. *)
Record traced (W : Type) : Type := mkTraced {
  host : W;
  trace : list entry }.
Arguments mkTraced {W} host trace.
Arguments host {W} t.
Arguments trace {W} t.

Definition log {W} (e : entry) : Go (traced W) unit :=
  modify (fun t => mkTraced (host t) (trace t ++ [e])).

(** An external call that returns an [error]. *)
Definition extern {W} (c : call) (op : W -> option error * W)
  : Go (traced W) (option error) :=
  fun t => let '(r, w) := op (host t) in
           (Returned r, mkTraced w (trace t ++ [(c, reply_of_error r)])).

(** An external call that returns a value and an [error]. *)
Definition extern_val {W A} (c : call) (got : A -> reply) (op : W -> result A * W)
  : Go (traced W) (result A) :=
  fun t => let '(r, w) := op (host t) in
           (Returned r, mkTraced w (trace t ++ [(c, reply_of_result got r)])).

Section UtilityVM.
Context {W : Type} `{Host W}.

(** [for _, x := range xs { if x != nil { acc = append(acc, x) } }] *)
Definition append_present {A} (wrap : A -> Cloneable)
  (acc : list Cloneable) (xs : list (option A)) : list Cloneable :=
  fold_left (fun acc x => match x with
                          | Some v => acc ++ [wrap v]
                          | None => acc
                          end) xs acc.

(** [order] holds the key orders that the two loops over the share maps
    take in this call. *)
Definition GenerateTemplateConfig (order : share_order) (uvm : W) : UVMTemplateConfig :=
  let resources := [] in
  let resources :=
    append_present PtrVSMBShare resources
                   (range_values (vsmbDirShares uvm) (dir_keys order)) in
  let resources :=
    append_present PtrVSMBShare resources
                   (range_values (vsmbFileShares uvm) (file_keys order)) in
  let resources :=
    fold_left (fun acc location => append_present PtrSCSIMount acc location)
              (scsiLocations uvm) resources in
  {| UVMID := ID uvm; Resources := resources |}.

(** The orders that the loops of a call on [uvm] can take. *)
Definition possible_order (uvm : W) (order : share_order) : Prop :=
  key_order (vsmbDirShares uvm) (dir_keys order) /\
  key_order (vsmbFileShares uvm) (file_keys order).

Definition SaveAsTemplate : Go (traced W) (option error) :=
  let* err := extern hcsSystem_Pause host_Pause in
  match err with
  | Some e => ret (Some (errors_Wrap e "error pausing the VM"))
  | None =>
      let* err := extern (hcsSystem_Save hcsSaveOptions) (host_Save hcsSaveOptions) in
      match err with
      | Some e => ret (Some (errors_Wrap e "error saving the VM"))
      | None => ret None
      end
  end.

End UtilityVM.

End uvm.

(** ** encoding/gob, as far as this package uses it *)

Module gob.
Import uvm.

(** Modelled from the spec: the codec behind [gob.NewEncoder] and
    [gob.NewDecoder] (the Go library is not part of the sources at hand).  The
    spec describes it as a tag-plus-payload encoding of the polymorphic
    resource list, over a process-wide registry that maps a tag to the variant
    it decodes; encoding or decoding fails on a malformed stream and on a
    variant that is not registered. *)

Inductive kind : Type := KVSMBShare | KSCSIMount.

Definition kind_eqb (a b : kind) : bool :=
  match a, b with
  | KVSMBShare, KVSMBShare | KSCSIMount, KSCSIMount => true
  | _, _ => false
  end.

Definition kind_of (c : Cloneable) : kind :=
  match c with PtrVSMBShare _ => KVSMBShare | PtrSCSIMount _ => KSCSIMount end.

(** The name under which [gob.Register] files a pointer to a struct. *)
Definition type_name (k : kind) : string :=
  match k with
  | KVSMBShare => "*uvm.VSMBShare"
  | KSCSIMount => "*uvm.SCSIMount"
  end.

Definition registry : Type := list (string * kind).

Definition Register (k : kind) (reg : registry) : registry :=
  (type_name k, k) :: reg.

Definition registered_name (reg : registry) (k : kind) : option string :=
  fst <$> List.find (fun e => kind_eqb (snd e) k) reg.

Definition registered_kind (reg : registry) (name : string) : option kind :=
  snd <$> List.find (fun e => String.eqb (fst e) name) reg.

Definition byte_of_N (n : N) : byte := default x00 (Byte.of_N n).

(** Unsigned integers: seven bits a byte, least significant group first, the
    top bit set on every byte but the last. *)
Fixpoint encodeUint_groups (groups : nat) (n : N) : list byte :=
  match groups with
  | O => [byte_of_N (n mod 128)]
  | S g =>
      if (n <? 128)%N then [byte_of_N n]
      else byte_of_N (128 + n mod 128) :: encodeUint_groups g (n / 128)
  end.

Definition encodeUint (n : N) : list byte :=
  encodeUint_groups (N.to_nat (N.log2 n)) n.

Fixpoint decodeUint (bs : list byte) : option (N * list byte) :=
  match bs with
  | [] => None
  | b :: rest =>
      let v := Byte.to_N b in
      if (v <? 128)%N then Some (v, rest)
      else match decodeUint rest with
           | Some (hi, rest') => Some ((v - 128) + 128 * hi, rest')%N
           | None => None
           end
  end.

(** Signed integers: the sign moves to the lowest bit. *)
Definition encodeInt (z : Z) : list byte :=
  encodeUint (if (0 <=? z)%Z then Z.to_N (2 * z) else Z.to_N (- 2 * z - 1)).

Definition decodeInt (bs : list byte) : option (Z * list byte) :=
  match decodeUint bs with
  | Some (u, rest) =>
      Some (if N.even u then Z.of_N (u / 2) else (- Z.of_N (u / 2) - 1)%Z, rest)
  | None => None
  end.

Definition encodeBool (b : bool) : list byte :=
  encodeUint (if b then 1 else 0)%N.

Definition decodeBool (bs : list byte) : option (bool * list byte) :=
  match decodeUint bs with
  | Some (0%N, rest) => Some (false, rest)
  | Some (1%N, rest) => Some (true, rest)
  | _ => None
  end.

(** Strings: the byte count, then the bytes. *)
Definition encodeString (s : string) : list byte :=
  let bs := list_byte_of_string s in
  encodeUint (N.of_nat (length bs)) ++ bs.

Definition decodeString (bs : list byte) : option (string * list byte) :=
  match decodeUint bs with
  | Some (n, rest) =>
      let n := N.to_nat n in
      if decide (n <= length rest) then
        Some (string_of_list_byte (take n rest), drop n rest)
      else None
  | None => None
  end.

Definition encodeVSMBShare (s : VSMBShare) : list byte :=
  encodeString (vsmb_HostPath s) ++ encodeBool (vsmb_ReadOnly s).

Definition decodeVSMBShare (bs : list byte) : option (VSMBShare * list byte) :=
  match decodeString bs with
  | Some (hp, bs1) =>
      match decodeBool bs1 with
      | Some (ro, bs2) => Some (mkVSMBShare hp ro, bs2)
      | None => None
      end
  | None => None
  end.

Definition encodeSCSIMount (m : SCSIMount) : list byte :=
  encodeString (scsi_HostPath m) ++ encodeString (scsi_UVMPath m)
  ++ encodeInt (scsi_Controller m) ++ encodeInt (scsi_LUN m).

Definition decodeSCSIMount (bs : list byte) : option (SCSIMount * list byte) :=
  match decodeString bs with
  | Some (hp, bs1) =>
      match decodeString bs1 with
      | Some (up, bs2) =>
          match decodeInt bs2 with
          | Some (c, bs3) =>
              match decodeInt bs3 with
              | Some (l, bs4) => Some (mkSCSIMount hp up c l, bs4)
              | None => None
              end
          | None => None
          end
      | None => None
      end
  | None => None
  end.

(** An interface value: the registered name of its concrete type, then the
    value. *)
Definition encodeInterface (reg : registry) (c : Cloneable) : result (list byte) :=
  match registered_name reg (kind_of c) with
  | None => Err (ErrorString ("gob: type not registered for interface: "
                              +:+ type_name (kind_of c)))
  | Some name =>
      Ok (encodeString name ++
          match c with
          | PtrVSMBShare s => encodeVSMBShare s
          | PtrSCSIMount m => encodeSCSIMount m
          end)
  end.

Definition malformed : error := ErrorString "gob: malformed input".

Definition decodeInterface (reg : registry) (bs : list byte)
  : result (Cloneable * list byte) :=
  match decodeString bs with
  | None => Err malformed
  | Some (name, rest) =>
      match registered_kind reg name with
      | None => Err (ErrorString ("gob: name not registered for interface: " +:+ name))
      | Some KVSMBShare =>
          match decodeVSMBShare rest with
          | Some (s, rest') => Ok (PtrVSMBShare s, rest')
          | None => Err malformed
          end
      | Some KSCSIMount =>
          match decodeSCSIMount rest with
          | Some (m, rest') => Ok (PtrSCSIMount m, rest')
          | None => Err malformed
          end
      end
  end.

Fixpoint encodeInterfaces (reg : registry) (cs : list Cloneable) : result (list byte) :=
  match cs with
  | [] => Ok []
  | c :: cs' =>
      match encodeInterface reg c with
      | Err e => Err e
      | Ok b =>
          match encodeInterfaces reg cs' with
          | Err e => Err e
          | Ok bs => Ok (b ++ bs)
          end
      end
  end.

Fixpoint decodeInterfaces (reg : registry) (n : nat) (bs : list byte)
  : result (list Cloneable * list byte) :=
  match n with
  | O => Ok ([], bs)
  | S n' =>
      match decodeInterface reg bs with
      | Err e => Err e
      | Ok (c, rest) =>
          match decodeInterfaces reg n' rest with
          | Err e => Err e
          | Ok (cs, rest') => Ok (c :: cs, rest')
          end
      end
  end.

(** [Encoder.Encode] and [Decoder.Decode] at the type [UVMTemplateConfig]. *)
Definition Encode (reg : registry) (utc : UVMTemplateConfig) : result (list byte) :=
  match encodeInterfaces reg (Resources utc) with
  | Err e => Err e
  | Ok bs =>
      Ok (encodeString (UVMID utc)
          ++ encodeUint (N.of_nat (length (Resources utc))) ++ bs)
  end.

Definition Decode (reg : registry) (bs : list byte) : result UVMTemplateConfig :=
  match decodeString bs with
  | None => Err malformed
  | Some (id, bs1) =>
      match decodeUint bs1 with
      | None => Err malformed
      | Some (n, bs2) =>
          match decodeInterfaces reg (N.to_nat n) bs2 with
          | Err e => Err e
          | Ok (cs, _) => Ok (mkUVMTemplateConfig id cs)
          end
      end
  end.

End gob.


(** ** internal/regstate: the keyed persistent store *)

Module regstate.

(** Modelled from the spec: the durable keyed store behind [regstate.Open]
    (the package is not part of the sources at hand).  Under an opened root,
    an id holds values by key.  [Get] fails with a [NotFoundError] when the
    id is absent, [Create] fails when the id exists already, [Set] overwrites
    under an existing id, [Remove] deletes an id and fails with a
    [NotFoundError] when there is none.  A value is kept as it was when it
    was written. *)

Inductive call (V : Type) : Type :=
| CallOpen (root : string)
| CallGet (id key : string)
| CallSet (id key : string) (v : V)
| CallCreate (id key : string) (v : V)
| CallRemove (id : string)
| CallClose.
Arguments CallOpen {V} root.
Arguments CallGet {V} id key.
Arguments CallSet {V} id key v.
Arguments CallCreate {V} id key v.
Arguments CallRemove {V} id.
Arguments CallClose {V}.

Record store (V : Type) : Type := mkStore {
  open_error : option error;          (* what [Open] fails with, if it does *)
  ids : gmap string (gmap string V);
  calls : list (call V) }.
Arguments mkStore {V} open_error ids calls.
Arguments open_error {V} s.
Arguments ids {V} s.
Arguments calls {V} s.

Record Key : Type := mkKey { Name : string }.

Definition IsNotFoundError (err : option error) : bool :=
  match err with
  | Some (NotFoundError _) => true
  | _ => false
  end.

Section Store.
Context {V : Type}.

Definition called (c : call V) (s : store V) : store V :=
  mkStore (open_error s) (ids s) (calls s ++ [c]).

Definition with_ids (m : gmap string (gmap string V)) (s : store V) : store V :=
  mkStore (open_error s) m (calls s).

Definition Open (root : string) (perm : bool) : Go (store V) (result Key) :=
  fun s => (Returned match open_error s with
                     | Some e => Err e
                     | None => Ok (mkKey root)
                     end, called (CallOpen root) s).

Definition Close (k : Key) : Go (store V) unit :=
  modify (called CallClose).

Definition Get (k : Key) (id key : string) (out : V) : Go (store V) (result V) :=
  fun s => (Returned match ids s !! id with
                     | None => Err (NotFoundError id)
                     | Some vals =>
                         match vals !! key with
                         | None => Err (NoStateError id key)
                         | Some v => Ok v
                         end
                     end, called (CallGet id key) s).

Definition Create (k : Key) (id key : string) (v : V) : Go (store V) (option error) :=
  fun s => let s := called (CallCreate id key v) s in
           match ids s !! id with
           | Some _ => (Returned (Some (ErrorString ("container " +:+ id +:+ " already exists"))), s)
           | None => (Returned None, with_ids (<[id := {[key := v]}]> (ids s)) s)
           end.

Definition Set_ (k : Key) (id key : string) (v : V) : Go (store V) (option error) :=
  fun s => let s := called (CallSet id key v) s in
           match ids s !! id with
           | None => (Returned (Some (NotFoundError id)), s)
           | Some vals => (Returned None, with_ids (<[id := <[key := v]> vals]> (ids s)) s)
           end.

Definition Remove (k : Key) (id : string) : Go (store V) (option error) :=
  fun s => let s := called (CallRemove id) s in
           match ids s !! id with
           | None => (Returned (Some (NotFoundError id)), s)
           | Some _ => (Returned None, with_ids (delete id (ids s)) s)
           end.

End Store.

End regstate.

(** ** internal/clone: template configurations in the registry *)

Module clone.
Import uvm.

Definition configRoot : string := "croot".
Definition configKey : string := "ckey".

Record persistedUVMConfig : Type := mkPersistedUVMConfig {
  RawData : list byte;
  Stored : bool }.

Abbreviation registry_state := (regstate.store persistedUVMConfig).

(** [init]: the registrations made when the package is loaded, before any
    other function of the package runs. *)
Definition init (reg : gob.registry) : gob.registry :=
  gob.Register gob.KSCSIMount (gob.Register gob.KVSMBShare reg).

Definition gob_registry : gob.registry := init [].

Definition encodeTemplateConfig (utc : UVMTemplateConfig) : result (list byte) :=
  match gob.Encode gob_registry utc with
  | Err e => Err (ErrorString ("Error while encoding template config: " +:+ Error e))
  | Ok bs => Ok bs
  end.

Definition decodeTemplateConfig (encodedBytes : list byte) : result UVMTemplateConfig :=
  match gob.Decode gob_registry encodedBytes with
  | Err e => Err (ErrorString ("Error while decoding template config: " +:+ Error e))
  | Ok utc => Ok utc
  end.

Definition loadPersistedUVMConfig (ID : string)
  : Go registry_state (result persistedUVMConfig) :=
  let* r := regstate.Open configRoot false in
  match r with
  | Err e => ret (Err e)
  | Ok sk =>
      let puc := {| RawData := []; Stored := true |} in
      let* r := regstate.Get sk ID configKey puc in
      match r with
      | Err e => let* _ := regstate.Close sk in ret (Err e)
      | Ok puc => let* _ := regstate.Close sk in ret (Ok puc)
      end
  end.

(** The record behind the pointer [puc] after the call is the second
    component of the result. *)
Definition storePersistedUVMConfig (ID : string) (puc : persistedUVMConfig)
  : Go registry_state (option error * persistedUVMConfig) :=
  let* r := regstate.Open configRoot false in
  match r with
  | Err e => ret (Some e, puc)
  | Ok sk =>
      let* err := (if Stored puc
                   then regstate.Set_ sk ID configKey puc
                   else regstate.Create sk ID configKey puc) in
      match err with
      | Some e => let* _ := regstate.Close sk in ret (Some e, puc)
      | None =>
          let puc := {| RawData := RawData puc; Stored := true |} in
          let* _ := regstate.Close sk in ret (None, puc)
      end
  end.

Definition removePersistedUVMConfig (ID : string) : Go registry_state (option error) :=
  let* r := regstate.Open configRoot false in
  match r with
  | Err e =>
      if regstate.IsNotFoundError (Some e) then ret None else ret (Some e)
  | Ok sk =>
      let* err := regstate.Remove sk ID in
      match err with
      | Some e =>
          if regstate.IsNotFoundError (Some e)
          then let* _ := regstate.Close sk in ret None
          else let* _ := regstate.Close sk in ret (Some e)
      | None => let* _ := regstate.Close sk in ret None
      end
  end.

Definition SaveTemplateConfig (utc : UVMTemplateConfig) : Go registry_state (option error) :=
  let* r := loadPersistedUVMConfig (UVMID utc) in
  let err := err_of r in
  if negb (regstate.IsNotFoundError err) then
    let* msg := call_Error err in
    ret (Some (ErrorString ("Parent VM(ID: " +:+ UVMID utc
                            +:+ ") config shouldn't exit in registry (" +:+ msg
                            +:+ ") " +:+ String (ascii_of_nat 10) EmptyString)))
  else
    match encodeTemplateConfig utc with
    | Err e => ret (Some e)
    | Ok encodedBytes =>
        let puc := {| RawData := encodedBytes; Stored := false |} in
        let* r := storePersistedUVMConfig (UVMID utc) puc in
        match fst r with
        | Some e => ret (Some e)
        | None => ret None
        end
    end.

Definition RemoveSavedTemplateConfig (ID : string) : Go registry_state (option error) :=
  removePersistedUVMConfig ID.

Definition FetchTemplateConfig (ID : string) : Go registry_state (result UVMTemplateConfig) :=
  let* r := loadPersistedUVMConfig ID in
  match r with
  | Err e => ret (Err e)
  | Ok puc =>
      match decodeTemplateConfig (RawData puc) with
      | Err e => ret (Err e)
      | Ok utc => ret (Ok utc)
      end
  end.

End clone.

(** ** internal/hcsoci: network namespace setup *)

Module hcsoci.
Import uvm.

Section Network.
Context {W : Type} `{Host W} `{hns.Constants}.

(** The loop of [GetNamespaceEndpoints] over the endpoint ids. *)
Fixpoint GetNamespaceEndpoints_range (ids : list string)
  (endpoints : list hns.HNSEndpoint) : Go (traced W) (result (list hns.HNSEndpoint)) :=
  match ids with
  | [] => ret (Ok endpoints)
  | id :: ids' =>
      let* r := extern_val (hns_GetHNSEndpointByID id) GotEndpoint
                             (host_GetHNSEndpointByID id) in
      match r with
      | Err e => ret (Err e)
      | Ok endpoint => GetNamespaceEndpoints_range ids' (endpoints ++ [endpoint])
      end
  end.

Definition GetNamespaceEndpoints (netNS : string)
  : Go (traced W) (result (list hns.HNSEndpoint)) :=
  let* r := extern_val (hns_GetNamespaceEndpoints netNS) GotIds
                       (host_GetNamespaceEndpoints netNS) in
  match r with
  | Err e => ret (Err e)
  | Ok ids => GetNamespaceEndpoints_range ids []
  end.

(** [hcnNamespace.Id = id] *)
Definition set_Id (id : string) (ns : hcn.HostComputeNamespace) : hcn.HostComputeNamespace :=
  {| hcn.Id := id; hcn.NamespaceId := hcn.NamespaceId ns |}.

(** [ep.Namespace = &hns.Namespace{ID: id}] *)
Definition set_Namespace (id : string) (ep : hns.HNSEndpoint) : hns.HNSEndpoint :=
  {| hns.ep_Id := hns.ep_Id ep;
     hns.ep_Name := hns.ep_Name ep;
     hns.ep_Namespace := Some {| hns.ID := id |} |}.

Definition SetupNetworkNamespace (nsid : string) (isTemplate isClone : bool)
  : Go (traced W) (option error) :=
  let nsidInsideUVM :=
    if isTemplate || isClone then hns.CLONING_DEFAULT_NETWORK_NAMESPACE_ID else nsid in
  let* r := GetNamespaceEndpoints nsid in
  match r with
  | Err e => ret (Some e)
  | Ok endpoints =>
      let* err :=
        (if negb isClone then
           let* r := extern_val (hcn_GetNamespaceByID nsid) GotNamespace
                                (host_GetNamespaceByID nsid) in
           match r with
           | Err e => ret (Some e)
           | Ok hcnNamespace =>
               let hcnNamespace :=
                 if isTemplate then set_Id nsidInsideUVM hcnNamespace else hcnNamespace in
               extern (AddNetNSRaw hcnNamespace) (host_AddNetNSRaw hcnNamespace)
           end
         else ret None) in
      match err with
      | Some e => ret (Some e)
      | None =>
          let endpoints :=
            if isClone || isTemplate
            then map (set_Namespace nsidInsideUVM) endpoints
            else endpoints in
          let* err := extern (AddEndpointsToNS nsidInsideUVM endpoints)
                             (host_AddEndpointsToNS nsidInsideUVM endpoints) in
          match err with
          | Some e =>
              let* removeErr := extern (RemoveNetNS nsidInsideUVM)
                                       (host_RemoveNetNS nsidInsideUVM) in
              let* _ := match removeErr with
                        | Some re => log (log_Warn re, Succeeded)
                        | None => ret tt
                        end in
              ret (Some e)
          | None => ret None
          end
      end
  end.

End Network.

End hcsoci.

(** ** cmd/containerd-shim-runhcs-v1: saving a host as a template *)

Module shim.
Import uvm.

(** What [saveAsTemplate] acts on: the host with its trace, and the
    registry. *)
Record state (W : Type) : Type := mkState {
  st_host : traced W;
  st_registry : clone.registry_state }.
Arguments mkState {W} st_host st_registry.
Arguments st_host {W} s.
Arguments st_registry {W} s.

Section Shim.
Context {W : Type} `{Host W}.

Definition on_host {A} (c : Go (traced W) A) : Go (state W) A :=
  zoom st_host (fun t s => mkState t (st_registry s)) c.

(** [clone.SaveTemplateConfig(ctx, utc)], entered in the trace with the way
    it ended. *)
Definition clone_SaveTemplateConfig_call (utc : UVMTemplateConfig)
  : Go (state W) (option error) :=
  fun s =>
    let '(o, reg) := clone.SaveTemplateConfig utc (st_registry s) in
    (o, mkState (mkTraced (host (st_host s))
                          (trace (st_host s)
                           ++ [(clone_SaveTemplateConfig utc, reply_of_outcome o)]))
                reg).

(** [order] holds the key orders that the loops of the one call of
    [GenerateTemplateConfig] take. *)
Definition saveAsTemplate (order : share_order) : Go (state W) (option error) :=
  let* err := on_host (extern RemoveAllNICs host_RemoveAllNICs) in
  match err with
  | Some e => ret (Some e)
  | None =>
      let* err := on_host (extern CloseGCSConnection host_CloseGCSConnection) in
      match err with
      | Some e => ret (Some e)
      | None =>
          let* s := get in
          let* err := clone_SaveTemplateConfig_call
                        (GenerateTemplateConfig order (host (st_host s))) in
          match err with
          | Some e => ret (Some e)
          | None =>
              let* err := on_host SaveAsTemplate in
              match err with
              | Some e => ret (Some e)
              | None => ret None
              end
          end
      end
  end.

End Shim.

End shim.

(** ** A scripted host, for running the code on concrete inputs *)

Module scripted.
Import uvm.

(** A host whose operations fail when they are listed in [failing], whose
    provider answers every namespace id with the endpoints [endpoints], and
    whose inventories are given. *)
Record script : Type := mkScript {
  sc_ID : string;
  sc_dirShares : gmap string (option VSMBShare);
  sc_fileShares : gmap string (option VSMBShare);
  sc_scsi : list (list (option SCSIMount));
  sc_endpoints : list string;
  sc_failing : list string }.

Definition fails (name : string) (w : script) : option error :=
  if bool_decide (name ∈ sc_failing w) then Some (ErrorString (name +:+ " failed")) else None.

Definition answer {A} (name : string) (v : A) (w : script) : result A :=
  match fails name w with Some e => Err e | None => Ok v end.

#[export] Instance script_host : Host script := {
  ID := sc_ID;
  vsmbDirShares := sc_dirShares;
  vsmbFileShares := sc_fileShares;
  scsiLocations := sc_scsi;
  host_RemoveAllNICs w := (fails "RemoveAllNICs" w, w);
  host_CloseGCSConnection w := (fails "CloseGCSConnection" w, w);
  host_Pause w := (fails "Pause" w, w);
  host_Save _ w := (fails "Save" w, w);
  host_AddNetNSRaw _ w := (fails "AddNetNSRaw" w, w);
  host_AddEndpointsToNS _ _ w := (fails "AddEndpointsToNS" w, w);
  host_RemoveNetNS _ w := (fails "RemoveNetNS" w, w);
  host_GetNamespaceEndpoints _ w := (answer "GetNamespaceEndpoints" (sc_endpoints w) w, w);
  host_GetHNSEndpointByID id w :=
    (answer "GetHNSEndpointByID"
            (hns.mkHNSEndpoint id ("endpoint " +:+ id) (Some (hns.mkNamespace "ns-real"))) w, w);
  host_GetNamespaceByID nsid w :=
    (answer "GetNamespaceByID" (hcn.mkHostComputeNamespace nsid 7) w, w) }.

#[export] Instance script_constants : hns.Constants := {
  hns.CLONING_DEFAULT_NETWORK_NAMESPACE_ID := "ns-cloning" }.

Definition shareA : VSMBShare := mkVSMBShare "C:\layers\base" true.
Definition mountB : SCSIMount := mkSCSIMount "C:\scratch\sandbox.vhdx" "/run/scratch" 0 3.

Definition shareC : VSMBShare := mkVSMBShare "C:\layers\tools" false.

Definition vm123 (failing : list string) : script :=
  mkScript "vm-123"
           {[ "C:\layers\base" := Some shareA; "C:\layers\stale" := None ]}
           {[ "C:\files\hosts" := None ]}
           [[None; Some mountB; None]; []]
           ["ep-1"; "ep-2"] failing.

(** An order that the loops over the maps of [vm123] can take. *)
Definition order123 : share_order :=
  mkShareOrder ["C:\layers\base"; "C:\layers\stale"] ["C:\files\hosts"].

Definition empty_registry : clone.registry_state := regstate.mkStore None ∅ [].

Definition config123 : UVMTemplateConfig := GenerateTemplateConfig order123 (vm123 []).

(** A guest with two directory shares, and the two orders that a loop over
    them can take. *)
Definition vm456 : script :=
  mkScript "vm-456"
           {[ "C:\layers\base" := Some shareA; "C:\layers\tools" := Some shareC ]}
           ∅ [] [] [].

Definition base_first : share_order :=
  mkShareOrder ["C:\layers\base"; "C:\layers\tools"] [].

Definition tools_first : share_order :=
  mkShareOrder ["C:\layers\tools"; "C:\layers\base"] [].

(** The registry after [config123] has been saved once. *)
Definition saved123 : clone.registry_state :=
  snd (clone.SaveTemplateConfig config123 empty_registry).


Definition rewritten_endpoints : list hns.HNSEndpoint :=
  [hns.mkHNSEndpoint "ep-1" "endpoint ep-1" (Some (hns.mkNamespace "ns-cloning"));
   hns.mkHNSEndpoint "ep-2" "endpoint ep-2" (Some (hns.mkNamespace "ns-cloning"))].

(** The endpoints as the provider of [vm123] returns them, and the lookups
    that fetch them. *)
Definition provider_endpoints : list hns.HNSEndpoint :=
  [hns.mkHNSEndpoint "ep-1" "endpoint ep-1" (Some (hns.mkNamespace "ns-real"));
   hns.mkHNSEndpoint "ep-2" "endpoint ep-2" (Some (hns.mkNamespace "ns-real"))].

Definition endpoint_lookups : list entry :=
  [(hns_GetNamespaceEndpoints "ns-real", GotIds ["ep-1"; "ep-2"]);
   (hns_GetHNSEndpointByID "ep-1",
    GotEndpoint (hns.mkHNSEndpoint "ep-1" "endpoint ep-1"
                                   (Some (hns.mkNamespace "ns-real"))));
   (hns_GetHNSEndpointByID "ep-2",
    GotEndpoint (hns.mkHNSEndpoint "ep-2" "endpoint ep-2"
                                   (Some (hns.mkNamespace "ns-real"))))].

End scripted.

(** ** What a run shows *)

Module observe.
Import uvm.

(** The namespace ids looked up at the provider. *)
Definition provider_lookups (tr : list entry) : list string :=
  omap (fun e => match fst e with
                 | hns_GetNamespaceEndpoints x | hcn_GetNamespaceByID x => Some x
                 | _ => None
                 end) tr.

(** The endpoint objects the provider returned, in order. *)
Definition fetched_endpoints (tr : list entry) : list hns.HNSEndpoint :=
  omap (fun e => match e with
                 | (hns_GetHNSEndpointByID _, GotEndpoint ep) => Some ep
                 | _ => None
                 end) tr.

(** The namespace objects the provider returned. *)
Definition fetched_namespaces (tr : list entry) : list hcn.HostComputeNamespace :=
  omap (fun e => match e with
                 | (hcn_GetNamespaceByID _, GotNamespace ns) => Some ns
                 | _ => None
                 end) tr.

(** The namespace objects hot-added into the guest. *)
Definition added_namespaces (tr : list entry) : list hcn.HostComputeNamespace :=
  omap (fun e => match fst e with AddNetNSRaw ns => Some ns | _ => None end) tr.

(** The endpoint hot-adds: the namespace id and the endpoint list of each. *)
Definition added_endpoints (tr : list entry) : list (string * list hns.HNSEndpoint) :=
  omap (fun e => match fst e with
                 | AddEndpointsToNS id eps => Some (id, eps)
                 | _ => None
                 end) tr.

Definition is_endpoint_fetch (e : entry) : bool :=
  match fst e with hns_GetHNSEndpointByID _ => true | _ => false end.


(** The store's root opens, or its opening reports not-found. *)
Definition open_benign (s : clone.registry_state) : Prop :=
  match regstate.open_error s with
  | None => True
  | Some e => regstate.IsNotFoundError (Some e) = true
  end.

(** The store's call log after [storePersistedUVMConfig] has opened it and
    written once. *)
Definition write_log (ID : string) (puc : clone.persistedUVMConfig)
  (s : clone.registry_state) : list (regstate.call clone.persistedUVMConfig) :=
  regstate.calls s
  ++ [regstate.CallOpen clone.configRoot;
      if clone.Stored puc then regstate.CallSet ID clone.configKey puc
      else regstate.CallCreate ID clone.configKey puc;
      regstate.CallClose].

End observe.

(** ** internal/uvm: attaching to a cloned container *)

Module uvm_container.

(** The guest connection of a [UtilityVM], which these sources use but do
    not define: whether [uvm.gc] is non-nil, and [gc.CloneContainer], which
    returns a container of type [C]. *)
Class GuestConnection (W C : Type) : Type := {
  gc_connected : W -> bool;
  gc_CloneContainer : string -> W -> result C * W }.

Section CloneContainer.
Context {W C : Type} `{GuestConnection W C}.

Definition CloneContainer (id : string) : Go W (result C) :=
  let* uvm := get in
  if negb (gc_connected uvm) then
    ret (Err (ErrorString "clone container cannot work without external GCS connection"))
  else
    let* r := (fun uvm => let '(r, uvm') := gc_CloneContainer id uvm in
                          (Returned r, uvm')) in
    match r with
    | Err err =>
        ret (Err (ErrorString ("failed to clone container " +:+ id +:+ ": "
                               +:+ Error err)))
    | Ok c => ret (Ok c)
    end.

End CloneContainer.

End uvm_container.

(** ** internal/hcsoci: creating a network namespace *)

Module hcsoci_create.

(** What [createNetworkNamespace] reads of its options: the container id and
    the path [coi.Spec.Windows.Network.EndpointList].  The declarations are
    not part of the sources at hand; [Spec], [Windows] and [Network] are
    pointers, nil is [None]. *)
Record WindowsNetwork : Type := mkWindowsNetwork {
  EndpointList : list string }.

Record Windows : Type := mkWindows {
  Network : option WindowsNetwork }.

Record Spec : Type := mkSpec {
  spec_Windows : option Windows }.

Record createOptionsInternal : Type := mkCreateOptionsInternal {
  coi_ID : string;
  coi_Spec : option Spec }.

(** [uvm.NetworkEndpoints], as the function builds it. *)
Record NetworkEndpoints : Type := mkNetworkEndpoints {
  EndpointIDs : list string;
  Namespace : string }.

(** An element of [resources.resources]: a pointer to a [NetworkEndpoints],
    or a resource of another kind that was there before. *)
Inductive ResourceCloser : Type :=
| PtrNetworkEndpoints (ne : NetworkEndpoints)
| OtherResource (name : string).

(** The fields of [Resources] that the function writes. *)
Record Resources : Type := mkResources {
  netNS : string;
  createdNetNS : bool;
  resources : list ResourceCloser }.

(** The calls made to the networking provider, each with its answer. *)
Inductive event : Type :=
| CreateNamespace (r : result string)
| AddNamespaceEndpoint (netID endpointID : string) (err : option error).

Class NamespaceService (W : Type) : Type := {
  hns_CreateNamespace : W -> result string * W;
  hns_AddNamespaceEndpoint : string -> string -> W -> option error * W }.

(** The state of a call: the provider, the calls made to it, and the record
    that the argument [resources] points at. *)
Record scope (W : Type) : Type := mkScope {
  service : W;
  events : list event;
  at_resources : Resources }.
Arguments mkScope {W} service events at_resources.
Arguments service {W} s.
Arguments events {W} s.
Arguments at_resources {W} s.

Section Create.
Context {W : Type} `{NamespaceService W}.

Definition call_CreateNamespace : Go (scope W) (result string) :=
  fun s => let '(r, w) := hns_CreateNamespace (service s) in
           (Returned r, mkScope w (events s ++ [CreateNamespace r]) (at_resources s)).

Definition call_AddNamespaceEndpoint (netID endpointID : string)
  : Go (scope W) (option error) :=
  fun s => let '(r, w) := hns_AddNamespaceEndpoint netID endpointID (service s) in
           (Returned r, mkScope w (events s ++ [AddNamespaceEndpoint netID endpointID r])
                                (at_resources s)).

(** A write through the pointer [resources]. *)
Definition assign (f : Resources -> Resources) : Go (scope W) unit :=
  modify (fun s => mkScope (service s) (events s) (f (at_resources s))).

(** A read through a pointer that may be nil. *)
Definition deref {A} (p : option A) : Go (scope W) A :=
  match p with
  | Some a => ret a
  | None => panic nil_dereference
  end.

(** The loop over [EndpointList]; [endpoints] is the slice built so far. *)
Fixpoint createNetworkNamespace_range (netID : string) (endpointList : list string)
  (endpoints : list string) : Go (scope W) (result (list string)) :=
  match endpointList with
  | [] => ret (Ok endpoints)
  | endpointID :: rest =>
      let* err := call_AddNamespaceEndpoint netID endpointID in
      match err with
      | Some e => ret (Err e)
      | None => createNetworkNamespace_range netID rest (endpoints ++ [endpointID])
      end
  end.

(** The debug and info lines that the function logs are left out. *)
Definition createNetworkNamespace (coi : createOptionsInternal)
  : Go (scope W) (option error) :=
  let* r := call_CreateNamespace in
  match r with
  | Err e => ret (Some e)
  | Ok netID =>
      let* _ := assign (fun res => {| netNS := netID;
                                      createdNetNS := createdNetNS res;
                                      resources := resources res |}) in
      let* _ := assign (fun res => {| netNS := netNS res;
                                      createdNetNS := true;
                                      resources := resources res |}) in
      let* spec := deref (coi_Spec coi) in
      let* windows := deref (spec_Windows spec) in
      let* network := deref (Network windows) in
      let* r := createNetworkNamespace_range netID (EndpointList network) [] in
      match r with
      | Err e => ret (Some e)
      | Ok endpoints =>
          let* _ := assign (fun res =>
                      {| netNS := netNS res;
                         createdNetNS := createdNetNS res;
                         resources := resources res
                           ++ [PtrNetworkEndpoints
                                 {| EndpointIDs := endpoints; Namespace := netID |}] |}) in
          ret None
      end
  end.

(** The endpoint list behind the options, when no pointer on the path to it
    is nil. *)
Definition endpoint_list (coi : createOptionsInternal) : option (list string) :=
  spec ← coi_Spec coi; windows ← spec_Windows spec; network ← Network windows;
  Some (EndpointList network).

End Create.

End hcsoci_create.

(** ** More of what a run shows *)

Module observe_more.
Import uvm.

(** The errors of the calls that failed, in order. *)
Definition failures (tr : list entry) : list error :=
  omap (fun e => match snd e with Failed err => Some err | _ => None end) tr.




Definition is_endpoint_add (c : call) : bool :=
  match c with AddEndpointsToNS _ _ => true | _ => false end.

(** The calls that add the endpoints [eps] to the namespace [netID], each
    answered with success. *)
Definition endpoints_added (netID : string) (eps : list string)
  : list hcsoci_create.event :=
  (fun ep => hcsoci_create.AddNamespaceEndpoint netID ep None) <$> eps.

(** How often the store's log opens a root, and how often it closes one. *)
Definition opens {V} (log : list (regstate.call V)) : nat :=
  length (List.filter (fun c => match c with regstate.CallOpen _ => true | _ => false end)
                      log).

Definition closes {V} (log : list (regstate.call V)) : nat :=
  length (List.filter (fun c => match c with regstate.CallClose => true | _ => false end)
                      log).

(** Between two states of the store, the log has grown by calls among which
    every opening that succeeded has its close. *)
Definition keys_closed (s s' : clone.registry_state) : Prop :=
  exists new,
    regstate.calls s' = regstate.calls s ++ new /\
    closes new = match regstate.open_error s with Some _ => 0 | None => opens new end.

End observe_more.

(** ** More scripted inputs *)

Module scripted_more.
Import uvm scripted.

(** A registry whose root cannot be opened. *)
Definition locked_registry : clone.registry_state :=
  regstate.mkStore (Some (ErrorString "access is denied")) ∅ [].

#[export] Instance script_connection : uvm_container.GuestConnection script string := {
  uvm_container.gc_connected w := bool_decide ("no GCS" ∉ sc_failing w);
  uvm_container.gc_CloneContainer id w := (answer "CloneContainer" ("container " +:+ id) w, w) }.

#[export] Instance script_service : hcsoci_create.NamespaceService script := {
  hcsoci_create.hns_CreateNamespace w := (answer "CreateNamespace" "ns-new" w, w);
  hcsoci_create.hns_AddNamespaceEndpoint netID endpointID w :=
    (if bool_decide (endpointID ∈ sc_failing w)
     then Some (ErrorString ("cannot add " +:+ endpointID)) else None, w) }.

(** The record that [saved123] holds for [config123]. *)
Definition record123 : clone.persistedUVMConfig :=
  clone.mkPersistedUVMConfig
    (match clone.encodeTemplateConfig config123 with Ok bs => bs | Err _ => [] end)
    false.

(** A record that has not been stored yet. *)
Definition draft : clone.persistedUVMConfig :=
  clone.mkPersistedUVMConfig [x01; x02; x03] false.

(** A host on which pausing fails. *)
Definition no_pause : script := vm123 ["Pause"].

(** Options that list two endpoints, and a call that starts with one
    resource of another kind recorded. *)
Definition two_endpoints : hcsoci_create.createOptionsInternal :=
  hcsoci_create.mkCreateOptionsInternal "container-1"
    (Some (hcsoci_create.mkSpec
             (Some (hcsoci_create.mkWindows
                      (Some (hcsoci_create.mkWindowsNetwork ["ep-1"; "ep-2"])))))).

Definition one_resource : hcsoci_create.Resources :=
  hcsoci_create.mkResources "" false [hcsoci_create.OtherResource "scratch"].

Definition creating (failing : list string) : hcsoci_create.scope script :=
  hcsoci_create.mkScope (vm123 failing) [] one_resource.

End scripted_more.

(** * Proofs *)

Import uvm observe.

(** ** The codec *)

Section CodecProofs.
Import gob.

Lemma to_N_byte_of_N (n : N) : (n < 256)%N -> Byte.to_N (byte_of_N n) = n.
Proof.
  intros Hn. unfold byte_of_N.
  destruct (Byte.of_N n) as [b|] eqn:E.
  - simpl. by apply Byte.to_of_N.
  - apply Byte.of_N_None_iff in E. lia.
Qed.

Lemma log2_div128 (n : N) : (128 <= n)%N -> (N.log2 (n / 128) < N.log2 n)%N.
Proof.
  intros Hn.
  change 128%N with (2 ^ 7)%N. rewrite <- N.shiftr_div_pow2, N.log2_shiftr.
  assert (7 <= N.log2 n)%N.
  { change 7%N with (N.log2 (2^7)). apply N.log2_le_mono. exact Hn. }
  lia.
Qed.

Lemma decodeUint_groups (g : nat) : forall (n : N) (rest : list byte),
  N.to_nat (N.log2 n) <= g ->
  decodeUint (encodeUint_groups g n ++ rest) = Some (n, rest).
Proof.
  induction g as [|g IH]; intros n rest Hg.
  - assert (Hn : (n < 2)%N).
    { destruct (N.lt_ge_cases n 2) as [|Hge]; [done|].
      apply N.log2_le_mono in Hge. change (N.log2 2) with 1%N in Hge. lia. }
    assert (Hm : (n mod 128 = n)%N) by (apply N.mod_small; lia).
    cbn [encodeUint_groups app decodeUint]. rewrite Hm, to_N_byte_of_N by lia.
    destruct (N.ltb_spec n 128); [done | lia].
  - cbn [encodeUint_groups].
    destruct (N.ltb_spec n 128) as [Hlt|Hge].
    + cbn [app decodeUint]. rewrite to_N_byte_of_N by lia.
      destruct (N.ltb_spec n 128); [done | lia].
    + assert (Hm : (n mod 128 < 128)%N) by (apply N.mod_lt; lia).
      assert (Hd : (n = 128 * (n / 128) + n mod 128)%N) by (apply N.div_mod; lia).
      pose proof (log2_div128 n Hge) as Hl.
      generalize dependent (n mod 128)%N. intros r Hr Hd.
      cbn [app decodeUint]. rewrite to_N_byte_of_N by lia.
      destruct (N.ltb_spec (128 + r) 128); [lia|].
      rewrite IH by lia. f_equal. f_equal. lia.
Qed.

Lemma decodeUint_encodeUint (n : N) (rest : list byte) :
  decodeUint (encodeUint n ++ rest) = Some (n, rest).
Proof. apply decodeUint_groups. done. Qed.

Lemma decodeInt_encodeInt (z : Z) (rest : list byte) :
  decodeInt (encodeInt z ++ rest) = Some (z, rest).
Proof.
  unfold decodeInt, encodeInt. rewrite decodeUint_encodeUint.
  f_equal. f_equal.
  destruct (Z.leb_spec 0 z) as [Hz|Hz].
  - replace (Z.to_N (2 * z)) with (2 * Z.to_N z)%N by lia.
    rewrite N.even_mul. simpl. rewrite N.mul_comm, N.div_mul by lia. lia.
  - replace (Z.to_N (- 2 * z - 1)) with (2 * Z.to_N (- z - 1) + 1)%N by lia.
    rewrite N.add_comm, N.even_add_mul_2. simpl. rewrite N.add_comm.
    replace ((2 * Z.to_N (- z - 1) + 1) / 2)%N with (Z.to_N (- z - 1)).
    + lia.
    + apply N.div_unique with (r := 1%N); lia.
Qed.

Lemma decodeBool_encodeBool (b : bool) (rest : list byte) :
  decodeBool (encodeBool b ++ rest) = Some (b, rest).
Proof.
  unfold decodeBool, encodeBool. rewrite decodeUint_encodeUint. by destruct b.
Qed.

Lemma decodeString_encodeString (s : string) (rest : list byte) :
  decodeString (encodeString s ++ rest) = Some (s, rest).
Proof.
  unfold decodeString, encodeString. rewrite <- app_assoc, decodeUint_encodeUint.
  rewrite Nat2N.id.
  rewrite decide_True by (rewrite length_app; lia).
  rewrite take_app_length, drop_app_length.
  by rewrite string_of_list_byte_of_string.
Qed.


Lemma decodeVSMBShare_encodeVSMBShare (s : VSMBShare) (rest : list byte) :
  decodeVSMBShare (encodeVSMBShare s ++ rest) = Some (s, rest).
Proof.
  unfold decodeVSMBShare, encodeVSMBShare.
  rewrite <- app_assoc, decodeString_encodeString, decodeBool_encodeBool.
  by destruct s.
Qed.

Lemma decodeSCSIMount_encodeSCSIMount (m : SCSIMount) (rest : list byte) :
  decodeSCSIMount (encodeSCSIMount m ++ rest) = Some (m, rest).
Proof.
  unfold decodeSCSIMount, encodeSCSIMount.
  rewrite <- !app_assoc, !decodeString_encodeString, !decodeInt_encodeInt.
  by destruct m.
Qed.

Lemma registered_name_init (k : kind) :
  registered_name clone.gob_registry k = Some (type_name k).
Proof. by destruct k. Qed.

Lemma registered_kind_init (k : kind) :
  registered_kind clone.gob_registry (type_name k) = Some k.
Proof. by destruct k. Qed.

Lemma decodeInterface_encodeInterface (c : Cloneable) :
  exists b, encodeInterface clone.gob_registry c = Ok b /\
    forall rest, decodeInterface clone.gob_registry (b ++ rest) = Ok (c, rest).
Proof.
  unfold encodeInterface. rewrite registered_name_init.
  eexists; split; [reflexivity|]. intros rest.
  unfold decodeInterface.
  rewrite <- app_assoc, decodeString_encodeString, registered_kind_init.
  destruct c as [s|m]; cbn [kind_of].
  - by rewrite decodeVSMBShare_encodeVSMBShare.
  - by rewrite decodeSCSIMount_encodeSCSIMount.
Qed.

Lemma decodeInterfaces_encodeInterfaces (cs : list Cloneable) :
  exists bs, encodeInterfaces clone.gob_registry cs = Ok bs /\
    forall rest,
      decodeInterfaces clone.gob_registry (length cs) (bs ++ rest) = Ok (cs, rest).
Proof.
  induction cs as [|c cs (bs & Hbs & IH)].
  - exists []. by split.
  - destruct (decodeInterface_encodeInterface c) as (b & Hb & Hdec).
    exists (b ++ bs). cbn [encodeInterfaces]. rewrite Hb, Hbs. split; [done|].
    intros rest. cbn [length decodeInterfaces].
    by rewrite <- app_assoc, Hdec, IH.
Qed.

(** C3: for every template configuration, whatever mix of file-share and
    block-device mounts its resource list holds, encoding succeeds and
    decoding the bytes gives back the same configuration: the same id and a
    resource list equal in length, order, variant and field values. *)
Theorem encode_decode_round_trip (utc : UVMTemplateConfig) :
  exists encodedBytes,
    clone.encodeTemplateConfig utc = Ok encodedBytes /\
    clone.decodeTemplateConfig encodedBytes = Ok utc.
Proof.
  destruct (decodeInterfaces_encodeInterfaces (Resources utc)) as (bs & Hbs & Hdec).
  unfold clone.encodeTemplateConfig, clone.decodeTemplateConfig, Encode, Decode.
  rewrite Hbs. eexists; split; [reflexivity|].
  rewrite decodeString_encodeString, decodeUint_encodeUint.
  rewrite Nat2N.id. specialize (Hdec []). rewrite app_nil_r in Hdec.
  rewrite Hdec. by destruct utc.
Qed.

(** Without the registrations of [init] a resource does not encode. *)
Lemma Encode_unregistered (id : string) (c : Cloneable) (cs : list Cloneable) :
  exists e, Encode [] (mkUVMTemplateConfig id (c :: cs)) = Err e.
Proof. unfold Encode. cbn. eauto. Qed.

(** Encoding never fails in this package: both variants are registered. *)
Lemma encodeTemplateConfig_succeeds (utc : UVMTemplateConfig) :
  exists encodedBytes, clone.encodeTemplateConfig utc = Ok encodedBytes.
Proof.
  destruct (decodeInterfaces_encodeInterfaces (Resources utc)) as (bs & Hbs & _).
  unfold clone.encodeTemplateConfig, Encode. rewrite Hbs. eauto.
Qed.

Lemma encodeTemplateConfig_decodes (utc : UVMTemplateConfig) (encodedBytes : list byte) :
  clone.encodeTemplateConfig utc = Ok encodedBytes ->
  clone.decodeTemplateConfig encodedBytes = Ok utc.
Proof.
  destruct (decodeInterfaces_encodeInterfaces (Resources utc)) as (bs & Hbs & Hdec).
  unfold clone.encodeTemplateConfig, clone.decodeTemplateConfig, Encode, Decode.
  rewrite Hbs. intros [= <-].
  rewrite decodeString_encodeString, decodeUint_encodeUint.
  rewrite Nat2N.id. specialize (Hdec []). rewrite app_nil_r in Hdec.
  rewrite Hdec. by destruct utc.
Qed.

End CodecProofs.

(** ** The registry of template configurations *)

Section CloneProofs.
Import regstate clone.
Implicit Types (s : registry_state) (ID : string) (puc : persistedUVMConfig).

Lemma loadPersistedUVMConfig_absent ID s :
  ids s !! ID = None ->
  open_error s = None ->
  loadPersistedUVMConfig ID s =
    (Returned (Err (NotFoundError ID)),
     mkStore None (ids s) (calls s ++ [CallOpen configRoot; CallGet ID configKey; CallClose])).
Proof.
  intros Hid Hop. destruct s as [oe m cs]; simpl in *; subst oe.
  unfold loadPersistedUVMConfig, bind, Open, Get, Close, modify, called, ret; simpl.
  rewrite Hid. simpl. by rewrite <- !app_assoc.
Qed.

Lemma loadPersistedUVMConfig_open_fails ID s e :
  open_error s = Some e ->
  loadPersistedUVMConfig ID s = (Returned (Err e), called (CallOpen configRoot) s).
Proof.
  intros Hop. unfold loadPersistedUVMConfig, bind, Open, ret. by rewrite Hop.
Qed.

Lemma loadPersistedUVMConfig_present ID s vals v :
  open_error s = None ->
  ids s !! ID = Some vals ->
  vals !! configKey = Some v ->
  loadPersistedUVMConfig ID s =
    (Returned (Ok v),
     mkStore None (ids s) (calls s ++ [CallOpen configRoot; CallGet ID configKey; CallClose])).
Proof.
  intros Hop Hid Hv. destruct s as [oe m cs]; simpl in *; subst oe.
  unfold loadPersistedUVMConfig, bind, Open, Get, Close, modify, called, ret; simpl.
  rewrite Hid, Hv. simpl. by rewrite <- !app_assoc.
Qed.

Lemma storePersistedUVMConfig_open_fails ID puc s e :
  open_error s = Some e ->
  storePersistedUVMConfig ID puc s
  = (Returned (Some e, puc), called (CallOpen configRoot) s).
Proof.
  intros Hop. unfold storePersistedUVMConfig, bind, Open, ret. by rewrite Hop.
Qed.

Ltac run_store :=
  unfold storePersistedUVMConfig, write_log, bind, Open, Set_, Create, Close,
    modify, called, with_ids, ret; simpl.

Lemma storePersistedUVMConfig_create ID puc s :
  open_error s = None -> Stored puc = false -> ids s !! ID = None ->
  storePersistedUVMConfig ID puc s
  = (Returned (None, {| RawData := RawData puc; Stored := true |}),
     mkStore None (<[ID := {[configKey := puc]}]> (ids s)) (write_log ID puc s)).
Proof.
  destruct s as [oe m cs]; simpl; intros -> Hst Hid. run_store.
  rewrite Hst; simpl; rewrite Hid; simpl. by rewrite <- !app_assoc.
Qed.

Lemma storePersistedUVMConfig_create_exists ID puc s vals :
  open_error s = None -> Stored puc = false -> ids s !! ID = Some vals ->
  exists e, storePersistedUVMConfig ID puc s
            = (Returned (Some e, puc), mkStore None (ids s) (write_log ID puc s)).
Proof.
  destruct s as [oe m cs]; simpl; intros -> Hst Hid. run_store.
  rewrite Hst; simpl; rewrite Hid; simpl. rewrite <- !app_assoc. eauto.
Qed.

Lemma storePersistedUVMConfig_update ID puc s vals :
  open_error s = None -> Stored puc = true -> ids s !! ID = Some vals ->
  storePersistedUVMConfig ID puc s
  = (Returned (None, {| RawData := RawData puc; Stored := true |}),
     mkStore None (<[ID := <[configKey := puc]> vals]> (ids s)) (write_log ID puc s)).
Proof.
  destruct s as [oe m cs]; simpl; intros -> Hst Hid. run_store.
  rewrite Hst; simpl; rewrite Hid; simpl. by rewrite <- !app_assoc.
Qed.

Lemma storePersistedUVMConfig_update_absent ID puc s :
  open_error s = None -> Stored puc = true -> ids s !! ID = None ->
  storePersistedUVMConfig ID puc s
  = (Returned (Some (NotFoundError ID), puc),
     mkStore None (ids s) (write_log ID puc s)).
Proof.
  destruct s as [oe m cs]; simpl; intros -> Hst Hid. run_store.
  rewrite Hst; simpl; rewrite Hid; simpl. by rewrite <- !app_assoc.
Qed.

(** C4: [storePersistedUVMConfig] opens the store and then makes exactly one
    write: a [Create] when the record's [Stored] is false, a [Set] when it is
    true.  A create puts the record under a fresh id and fails, changing
    nothing, when the id exists; a set overwrites under an existing id.  The
    record behind the pointer gets [Stored = true] when the call succeeds and
    is left as it was when the call fails. *)
Theorem storePersistedUVMConfig_create_or_update ID puc s :
  match open_error s with
  | Some e =>
      storePersistedUVMConfig ID puc s
      = (Returned (Some e, puc), called (CallOpen configRoot) s)
  | None =>
      let log := calls s ++ [CallOpen configRoot;
                             if Stored puc then CallSet ID configKey puc
                             else CallCreate ID configKey puc;
                             CallClose] in
      let stored := {| RawData := RawData puc; Stored := true |} in
      match Stored puc, ids s !! ID with
      | false, None =>
          storePersistedUVMConfig ID puc s
          = (Returned (None, stored),
             mkStore None (<[ID := {[configKey := puc]}]> (ids s)) log)
      | false, Some _ =>
          exists e, storePersistedUVMConfig ID puc s
                    = (Returned (Some e, puc), mkStore None (ids s) log)
      | true, Some vals =>
          storePersistedUVMConfig ID puc s
          = (Returned (None, stored),
             mkStore None (<[ID := <[configKey := puc]> vals]> (ids s)) log)
      | true, None =>
          storePersistedUVMConfig ID puc s
          = (Returned (Some (NotFoundError ID), puc), mkStore None (ids s) log)
      end
  end.
Proof.
  destruct (open_error s) as [e|] eqn:Hop.
  - by apply storePersistedUVMConfig_open_fails.
  - destruct (Stored puc) eqn:Hst, (ids s !! ID) as [vals|] eqn:Hid; cbv zeta.
    + rewrite (storePersistedUVMConfig_update _ _ _ vals) by done.
      unfold write_log. by rewrite Hst.
    + rewrite storePersistedUVMConfig_update_absent by done.
      unfold write_log. by rewrite Hst.
    + destruct (storePersistedUVMConfig_create_exists ID puc s vals) as [e ->];
        [done..|].
      unfold write_log. rewrite Hst. eauto.
    + rewrite storePersistedUVMConfig_create by done.
      unfold write_log. by rewrite Hst.
Qed.

(** A successful save leaves a record under the id, in a store that opens. *)
Lemma SaveTemplateConfig_success (utc : UVMTemplateConfig) s s1 :
  SaveTemplateConfig utc s = (Returned None, s1) ->
  open_error s1 = None /\ ids s !! UVMID utc = None /\
  exists bs, encodeTemplateConfig utc = Ok bs /\
    ids s1 = <[UVMID utc := {[configKey := (mkPersistedUVMConfig bs false)]}]> (ids s).
Proof.
  unfold SaveTemplateConfig.
  destruct (open_error s) as [e|] eqn:Hop.
  - unfold bind at 1. rewrite (loadPersistedUVMConfig_open_fails _ _ _ Hop).
    cbn [err_of].
    destruct (IsNotFoundError (Some e)); cbn [negb]; [|cbn; intros [=]].
    destruct (encodeTemplateConfig utc) as [bs|e']; [|cbn; intros [=]].
    unfold bind.
    rewrite (storePersistedUVMConfig_open_fails _ _ _ e) by done.
    cbn. intros [=].
  - destruct (ids s !! UVMID utc) as [vals|] eqn:Hrec.
    + unfold bind at 1, loadPersistedUVMConfig, bind, Open, Get, Close, modify,
        called, ret; simpl. rewrite Hop; simpl. rewrite Hrec.
      destruct (vals !! configKey); cbn; intros [=].
    + unfold bind at 1. rewrite (loadPersistedUVMConfig_absent _ _ Hrec Hop).
      cbn [err_of IsNotFoundError negb].
      destruct (encodeTemplateConfig utc) as [bs|e]; [|cbn; intros [=]].
      unfold bind. rewrite storePersistedUVMConfig_create by done.
      cbn. intros [= <-]. cbn. eauto.
Qed.

(** C1: after [SaveTemplateConfig] has succeeded for an id, a second call
    with the same id does not return an error: it panics with a nil pointer
    dereference, in [err.Error()] on the nil error of the successful load.
    The records in the store are those the first call left. *)
Theorem SaveTemplateConfig_second_call_panics (utc utc' : UVMTemplateConfig) s s1 :
  SaveTemplateConfig utc s = (Returned None, s1) ->
  UVMID utc' = UVMID utc ->
  exists s2,
    SaveTemplateConfig utc' s1 = (Panicked nil_dereference, s2) /\
    ids s2 = ids s1.
Proof.
  intros Hsave Hid.
  destruct (SaveTemplateConfig_success _ _ _ Hsave) as (Hop1 & _ & bs & _ & Hids).
  unfold SaveTemplateConfig, bind at 1.
  erewrite loadPersistedUVMConfig_present; [cbn; eauto|done| |apply lookup_singleton_eq].
  rewrite Hid, Hids. apply lookup_insert_eq.
Qed.

(** C6: for an id without a record, in a store that opens (or whose opening
    reports not-found), [FetchTemplateConfig] returns the store's not-found
    error itself, which no decoding produces; the records are unchanged. *)
Theorem FetchTemplateConfig_unknown_ID ID s :
  ids s !! ID = None ->
  open_benign s ->
  exists e s',
    FetchTemplateConfig ID s = (Returned (Err e), s') /\
    e = match open_error s with Some e0 => e0 | None => NotFoundError ID end /\
    IsNotFoundError (Some e) = true /\
    (forall encodedBytes, decodeTemplateConfig encodedBytes <> Err e) /\
    ids s' = ids s.
Proof.
  intros Hid Hop. unfold open_benign in Hop.
  assert (Hdec : forall e, IsNotFoundError (Some e) = true ->
                 forall bs, decodeTemplateConfig bs <> Err e).
  { intros e He bs. unfold decodeTemplateConfig.
    destruct (gob.Decode gob_registry bs); [done|].
    intros [= <-]. done. }
  unfold FetchTemplateConfig, bind.
  destruct (open_error s) as [e|] eqn:Hoe.
  - rewrite (loadPersistedUVMConfig_open_fails _ _ _ Hoe).
    eexists _, _. split; [reflexivity|]. repeat split; auto.
  - rewrite (loadPersistedUVMConfig_absent _ _ Hid Hoe).
    eexists _, _. split; [reflexivity|]. repeat split; auto.
Qed.

Ltac run_remove :=
  unfold RemoveSavedTemplateConfig, removePersistedUVMConfig, bind, Open, Remove,
    Close, modify, called, with_ids, ret; simpl.

Lemma removePersistedUVMConfig_nothing ID s :
  open_benign s ->
  (open_error s = None -> ids s !! ID = None) ->
  exists s', RemoveSavedTemplateConfig ID s = (Returned None, s') /\ ids s' = ids s.
Proof.
  destruct s as [oe m cs]. unfold open_benign; simpl. intros Hop Hid. run_remove.
  destruct oe as [e|]; simpl.
  - rewrite Hop. eauto.
  - rewrite Hid by done. simpl. eauto.
Qed.

Lemma removePersistedUVMConfig_success ID s0 s :
  RemoveSavedTemplateConfig ID s0 = (Returned None, s) ->
  open_benign s /\ (open_error s = None -> ids s !! ID = None).
Proof.
  destruct s0 as [oe m cs]. unfold open_benign. run_remove.
  destruct oe as [e|]; simpl.
  - destruct e; simpl; intros Heq; inversion Heq; subst; simpl.
    split; [done|]. intros [=].
  - destruct (m !! ID) eqn:Hid; simpl; intros Heq; inversion Heq; subst; simpl.
    + split; [done|]. intros _. apply lookup_delete_eq.
    + done.
Qed.

(** C7: for an id without a record, because it was never saved or because
    a remove has already succeeded, [RemoveSavedTemplateConfig] returns
    success and leaves the records as they are. *)
Theorem RemoveSavedTemplateConfig_idempotent ID s :
  (ids s !! ID = None /\ open_benign s) \/
  (exists s0, RemoveSavedTemplateConfig ID s0 = (Returned None, s)) ->
  exists s',
    RemoveSavedTemplateConfig ID s = (Returned None, s') /\
    ids s' = ids s.
Proof.
  intros [[Hid Hop]|[s0 Hrem]].
  - by apply removePersistedUVMConfig_nothing.
  - apply removePersistedUVMConfig_success in Hrem as [Hop Hid].
    by apply removePersistedUVMConfig_nothing.
Qed.
(** *** Further properties of the registry functions *)

Import observe_more.

Lemma FetchTemplateConfig_present ID s vals v :
  open_error s = None ->
  ids s !! ID = Some vals ->
  vals !! configKey = Some v ->
  FetchTemplateConfig ID s =
    (Returned (decodeTemplateConfig (RawData v)),
     mkStore None (ids s) (calls s ++ [CallOpen configRoot; CallGet ID configKey; CallClose])).
Proof.
  intros Hop Hid Hv. unfold FetchTemplateConfig, bind.
  rewrite (loadPersistedUVMConfig_present _ _ _ _ Hop Hid Hv).
  by destruct (decodeTemplateConfig (RawData v)).
Qed.

Lemma SaveTemplateConfig_absent (utc : UVMTemplateConfig) s :
  open_error s = None ->
  ids s !! UVMID utc = None ->
  exists encodedBytes s',
    encodeTemplateConfig utc = Ok encodedBytes /\
    SaveTemplateConfig utc s = (Returned None, s') /\
    ids s' = <[UVMID utc := {[configKey := (mkPersistedUVMConfig encodedBytes false)]}]>
               (ids s) /\
    open_error s' = None.
Proof.
  intros Hop Hid. destruct (encodeTemplateConfig_succeeds utc) as [bs Hbs].
  exists bs. unfold SaveTemplateConfig, bind.
  rewrite (loadPersistedUVMConfig_absent _ _ Hid Hop). cbn [err_of IsNotFoundError negb].
  rewrite Hbs, storePersistedUVMConfig_create by done. cbn.
  eexists. split; [done|]. split; [reflexivity|]. by split.
Qed.

(** X1: on a store that opens and has no record for the id, the save
    succeeds and adds exactly one record, under that id: the encoding of the
    configuration, marked as not yet stored.  The other ids keep their
    records. *)
Theorem SaveTemplateConfig_fresh (utc : UVMTemplateConfig) s :
  open_error s = None ->
  ids s !! UVMID utc = None ->
  exists encodedBytes s',
    encodeTemplateConfig utc = Ok encodedBytes /\
    SaveTemplateConfig utc s = (Returned None, s') /\
    ids s' !! UVMID utc
    = Some {[configKey := (mkPersistedUVMConfig encodedBytes false)]} /\
    (forall other, other <> UVMID utc -> ids s' !! other = ids s !! other).
Proof.
  intros Hop Hid.
  destruct (SaveTemplateConfig_absent utc s Hop Hid) as (bs & s' & Hbs & Hrun & Hids & _).
  exists bs, s'. split; [done|]. split; [done|]. rewrite Hids. split.
  - apply lookup_insert_eq.
  - intros other Hne. by rewrite lookup_insert_ne.
Qed.

(** X2: after a successful save, fetching the configuration's id gives back
    the configuration that was saved, and the fetch changes no record. *)
Theorem FetchTemplateConfig_after_save (utc : UVMTemplateConfig) s s1 :
  SaveTemplateConfig utc s = (Returned None, s1) ->
  exists s2,
    FetchTemplateConfig (UVMID utc) s1 = (Returned (Ok utc), s2) /\
    ids s2 = ids s1.
Proof.
  intros Hsave.
  destruct (SaveTemplateConfig_success _ _ _ Hsave) as (Hop1 & _ & bs & Hbs & Hids).
  erewrite FetchTemplateConfig_present;
    [|done|rewrite Hids; apply lookup_insert_eq|apply lookup_singleton_eq].
  cbn [RawData]. rewrite (encodeTemplateConfig_decodes _ _ Hbs). eauto.
Qed.

Lemma SaveTemplateConfig_cases (utc : UVMTemplateConfig) s :
  (exists s', SaveTemplateConfig utc s = (Returned None, s')) \/
  (exists o s', SaveTemplateConfig utc s = (o, s') /\ o <> Returned None /\
                ids s' = ids s /\ open_error s' = open_error s).
Proof.
  destruct (open_error s) as [e|] eqn:Hop.
  - right. unfold SaveTemplateConfig, bind.
    rewrite (loadPersistedUVMConfig_open_fails _ _ _ Hop). cbn [err_of].
    destruct (IsNotFoundError (Some e)); cbn [negb].
    + destruct (encodeTemplateConfig utc) as [bs|e']; [|cbn; eauto 10].
      rewrite (storePersistedUVMConfig_open_fails _ _ _ e) by done. cbn. eauto 10.
    + cbn. eauto 10.
  - destruct (ids s !! UVMID utc) as [vals|] eqn:Hrec.
    + right. destruct (vals !! configKey) as [v|] eqn:Hv.
      * unfold SaveTemplateConfig, bind.
        rewrite (loadPersistedUVMConfig_present _ _ _ _ Hop Hrec Hv). cbn.
        eexists _, _. by repeat split.
      * unfold SaveTemplateConfig, bind at 1, loadPersistedUVMConfig, bind, Open, Get,
          Close, modify, called, ret; simpl. rewrite Hop; simpl. rewrite Hrec, Hv.
        cbn. eexists _, _. by repeat split.
    + left. destruct (SaveTemplateConfig_absent utc s Hop Hrec) as (bs & s' & _ & -> & _).
      eauto.
Qed.

(** X3: a save that does not return success, because it returns an error or
    because it panics, leaves every record as it was. *)
Theorem SaveTemplateConfig_failure_keeps_records (utc : UVMTemplateConfig) s :
  fst (SaveTemplateConfig utc s) <> Returned None ->
  ids (snd (SaveTemplateConfig utc s)) = ids s.
Proof.
  destruct (SaveTemplateConfig_cases utc s) as [[s' ->]|(o & s' & -> & _ & Hids & _)];
    cbn; [done|]. by intros _.
Qed.

Lemma removePersistedUVMConfig_present ID s vals :
  open_error s = None ->
  ids s !! ID = Some vals ->
  RemoveSavedTemplateConfig ID s
  = (Returned None,
     mkStore None (delete ID (ids s))
             (calls s ++ [CallOpen configRoot; CallRemove ID; CallClose])).
Proof.
  destruct s as [oe m cs]; simpl; intros -> Hid. run_remove.
  rewrite Hid; simpl. by rewrite <- !app_assoc.
Qed.

(** X4: removing an id that has a record deletes that record and no
    other. *)
Theorem RemoveSavedTemplateConfig_deletes ID s :
  open_error s = None ->
  is_Some (ids s !! ID) ->
  exists s',
    RemoveSavedTemplateConfig ID s = (Returned None, s') /\
    ids s' !! ID = None /\
    (forall other, other <> ID -> ids s' !! other = ids s !! other).
Proof.
  intros Hop [vals Hid]. rewrite (removePersistedUVMConfig_present _ _ _ Hop Hid).
  eexists. split; [done|]. cbn. split.
  - apply lookup_delete_eq.
  - intros other Hne. by rewrite lookup_delete_ne.
Qed.

(** X5: the remove never panics and never reports not-found, neither for
    a root that is not found nor for an id that has no record.  When it
    returns an error, no record has changed. *)
Theorem RemoveSavedTemplateConfig_error ID s :
  exists r s',
    RemoveSavedTemplateConfig ID s = (Returned r, s') /\
    match r with
    | None => True
    | Some e => IsNotFoundError (Some e) = false /\ ids s' = ids s
    end.
Proof.
  destruct s as [oe m cs]. run_remove. destruct oe as [e|]; simpl.
  - destruct e; simpl; eexists _, _; (split; [reflexivity|]); done.
  - destruct (m !! ID); simpl; eexists _, _; (split; [reflexivity|]); done.
Qed.

(** X6: save, remove, fetch: after a successful save the remove succeeds and
    brings the records back to what they were before the save, the fetch
    then fails with the store's not-found error, and the configuration can be
    saved again. *)
Theorem SaveTemplateConfig_then_remove (utc : UVMTemplateConfig) s s1 :
  SaveTemplateConfig utc s = (Returned None, s1) ->
  exists s2 s3 s4,
    RemoveSavedTemplateConfig (UVMID utc) s1 = (Returned None, s2) /\
    ids s2 = ids s /\
    FetchTemplateConfig (UVMID utc) s2
    = (Returned (Err (NotFoundError (UVMID utc))), s3) /\
    SaveTemplateConfig utc s3 = (Returned None, s4).
Proof.
  intros Hsave.
  destruct (SaveTemplateConfig_success _ _ _ Hsave) as (Hop1 & Hid & bs & Hbs & Hids).
  assert (Hrec : ids s1 !! UVMID utc
                 = Some {[configKey := (mkPersistedUVMConfig bs false)]})
    by (rewrite Hids; apply lookup_insert_eq).
  pose proof (removePersistedUVMConfig_present _ _ _ Hop1 Hrec) as Hrem.
  match type of Hrem with _ = (_, ?x) => set (s2 := x) in * end.
  assert (Hback : ids s2 = ids s)
    by (cbn; rewrite Hids, delete_insert_eq; by apply delete_id).
  assert (Hid2 : ids s2 !! UVMID utc = None) by by rewrite Hback.
  pose proof (loadPersistedUVMConfig_absent _ s2 Hid2 eq_refl) as Hload.
  match type of Hload with _ = (_, ?x) => set (s3 := x) in * end.
  destruct (SaveTemplateConfig_absent utc s3) as (bs' & s4 & _ & Hrun & _);
    [done|exact Hid2|].
  exists s2, s3, s4. split; [done|]. split; [done|]. split; [|done].
  unfold FetchTemplateConfig, bind. by rewrite Hload.
Qed.

(** X7: a fetch never panics and never writes: whatever it returns, the
    records and the way the store opens are as before. *)
Theorem FetchTemplateConfig_reads_only ID s :
  exists r s',
    FetchTemplateConfig ID s = (Returned r, s') /\
    ids s' = ids s /\ open_error s' = open_error s.
Proof.
  destruct s as [oe m cs].
  unfold FetchTemplateConfig, loadPersistedUVMConfig, bind, Open, Get, Close, modify,
    called, ret; simpl.
  destruct oe as [e|]; simpl; [eauto|].
  destruct (m !! ID) as [vals|]; simpl; [|eauto].
  destruct (vals !! configKey) as [v|]; simpl; [|eauto].
  destruct (decodeTemplateConfig (RawData v)); simpl; eauto.
Qed.

(** X8: a fetch reports not-found exactly when the id has no record (on a
    store that opens): a record that does not decode, or an id without the
    configuration key, gives another error. *)
Theorem FetchTemplateConfig_not_found_iff ID s :
  open_error s = None ->
  (exists id, fst (FetchTemplateConfig ID s) = Returned (Err (NotFoundError id)))
  <-> ids s !! ID = None.
Proof.
  intros Hop. split.
  - intros [id Hres]. destruct (ids s !! ID) as [vals|] eqn:Hid; [exfalso|done].
    revert Hres. destruct (vals !! configKey) as [v|] eqn:Hv.
    + rewrite (FetchTemplateConfig_present _ _ _ _ Hop Hid Hv). cbn.
      unfold decodeTemplateConfig. by destruct (gob.Decode gob_registry (RawData v)).
    + destruct s as [oe m cs]; simpl in *; subst oe.
      unfold FetchTemplateConfig, loadPersistedUVMConfig, bind, Open, Get, Close,
        modify, called, ret; simpl. rewrite Hid, Hv. by cbn.
  - intros Hid. exists ID. unfold FetchTemplateConfig, bind.
    by rewrite (loadPersistedUVMConfig_absent _ _ Hid Hop).
Qed.

(** X9: the first store of a record creates it and marks the record as
    stored; storing the marked record again is an update, which succeeds
    where a second create would fail, and the store then holds it. *)
Theorem storePersistedUVMConfig_twice ID puc s :
  open_error s = None ->
  ids s !! ID = None ->
  Stored puc = false ->
  exists puc' s1 s2,
    storePersistedUVMConfig ID puc s = (Returned (None, puc'), s1) /\
    Stored puc' = true /\ RawData puc' = RawData puc /\
    storePersistedUVMConfig ID puc' s1 = (Returned (None, puc'), s2) /\
    ids s2 !! ID = Some {[configKey := puc']} /\
    (exists e s3, storePersistedUVMConfig ID puc s1 = (Returned (Some e, puc), s3) /\
                  ids s3 = ids s1).
Proof.
  intros Hop Hid Hst.
  rewrite storePersistedUVMConfig_create by done.
  eexists _, _, _. split; [reflexivity|]. split; [done|]. split; [done|].
  erewrite storePersistedUVMConfig_update;
    [|done|done|cbn [ids]; apply lookup_insert_eq].
  split; [reflexivity|]. cbn [ids]. split.
  - by rewrite lookup_insert_eq, insert_singleton_eq.
  - edestruct (storePersistedUVMConfig_create_exists ID puc) as [e ->];
      [| |cbn [ids]; apply lookup_insert_eq|eauto]; done.
Qed.

(** X10: what a store wrote is what a load reads back: after a successful
    store, the load of the id returns a record with the stored bytes. *)
Theorem loadPersistedUVMConfig_after_store ID puc puc' s s1 :
  storePersistedUVMConfig ID puc s = (Returned (None, puc'), s1) ->
  exists v s2,
    loadPersistedUVMConfig ID s1 = (Returned (Ok v), s2) /\
    RawData v = RawData puc /\ ids s2 = ids s1.
Proof.
  assert (Hgo : exists vals, open_error s = None ->
            storePersistedUVMConfig ID puc s = (Returned (None, puc'), s1) ->
            open_error s1 = None /\ ids s1 !! ID = Some vals /\
            vals !! configKey = Some puc).
  { destruct (Stored puc) eqn:Hst, (ids s !! ID) as [vals|] eqn:Hid.
    - exists (<[configKey := puc]> vals). intros Hop.
      rewrite (storePersistedUVMConfig_update _ _ _ vals) by done.
      intros [= _ <-]. cbn [ids open_error].
      split; [done|]. split; apply lookup_insert_eq.
    - exists ∅. intros Hop. rewrite storePersistedUVMConfig_update_absent by done.
      intros [=].
    - exists ∅. intros Hop.
      destruct (storePersistedUVMConfig_create_exists ID puc s vals) as [e ->];
        [done..|]. intros [=].
    - exists {[configKey := puc]}. intros Hop.
      rewrite storePersistedUVMConfig_create by done.
      intros [= _ <-]. cbn [ids open_error].
      split; [done|]. split; [apply lookup_insert_eq | apply lookup_singleton_eq]. }
  destruct Hgo as [vals Hgo]. intros Hrun.
  destruct (open_error s) as [e|] eqn:Hop.
  - rewrite (storePersistedUVMConfig_open_fails _ _ _ e) in Hrun by done.
    discriminate Hrun.
  - destruct (Hgo eq_refl Hrun) as (Hop1 & Hid1 & Hv).
    rewrite (loadPersistedUVMConfig_present _ _ _ _ Hop1 Hid1 Hv). eauto.
Qed.

Ltac run_registry :=
  unfold keys_closed, SaveTemplateConfig, FetchTemplateConfig,
    RemoveSavedTemplateConfig, removePersistedUVMConfig, loadPersistedUVMConfig,
    storePersistedUVMConfig, call_Error, panic, bind, Open, Get, Create, Set_, Remove,
    Close, modify, called, with_ids, ret;
  cbn -[encodeTemplateConfig decodeTemplateConfig];
  repeat (case_match; cbn -[encodeTemplateConfig decodeTemplateConfig];
          try discriminate);
  simplify_eq/=;
  try (eexists; split; [rewrite <- ?app_assoc; reflexivity | reflexivity]).

(** X11: every root a function opens it closes again before it ends, also
    when it fails and when it panics: in the store's log the closes of a call
    are as many as its opens, and none when the opening fails. *)
Theorem registry_keys_closed (utc : UVMTemplateConfig) ID s :
  keys_closed s (snd (SaveTemplateConfig utc s)) /\
  keys_closed s (snd (FetchTemplateConfig ID s)) /\
  keys_closed s (snd (RemoveSavedTemplateConfig ID s)).
Proof.
  destruct s as [oe m cs]. repeat split; run_registry.
Qed.

End CloneProofs.

(** ** Template configuration assembly *)

Section UvmProofs.
Context {W : Type} `{Host W}.

Lemma append_present_spec {A} (wrap : A -> Cloneable) (xs : list (option A)) :
  forall acc, append_present wrap acc xs = acc ++ (wrap <$> omap id xs).
Proof.
  induction xs as [|[x|] xs IH]; intros acc; cbn.
  - by rewrite app_nil_r.
  - unfold append_present in IH. by rewrite IH, <- app_assoc.
  - apply IH.
Qed.

Lemma append_locations_spec (locations : list (list (option SCSIMount))) :
  forall acc,
    fold_left (fun acc location => append_present PtrSCSIMount acc location)
              locations acc
    = acc ++ (PtrSCSIMount <$> omap id (concat locations)).
Proof.
  induction locations as [|l ls IH]; intros acc; cbn.
  - by rewrite app_nil_r.
  - by rewrite IH, append_present_spec, omap_app, fmap_app, app_assoc.
Qed.

Lemma GenerateTemplateConfig_Resources (order : share_order) (vm : W) :
  Resources (GenerateTemplateConfig order vm)
  = (PtrVSMBShare <$> omap id (range_values (vsmbDirShares vm) (dir_keys order))
                      ++ omap id (range_values (vsmbFileShares vm) (file_keys order)))
    ++ (PtrSCSIMount <$> omap id (concat (scsiLocations vm))).
Proof.
  unfold GenerateTemplateConfig; cbn [Resources].
  by rewrite append_locations_spec, !append_present_spec, fmap_app.
Qed.

Lemma length_omap_id {A} (xs : list (option A)) :
  length (omap id xs) = length (filter is_Some xs).
Proof.
  induction xs as [|[x|] xs IH]; [done| |].
  - rewrite filter_cons_True by eauto. cbn. by rewrite IH.
  - rewrite filter_cons_False by (intros [? [=]]). exact IH.
Qed.

Lemma omap_id_all_None {A} (xs : list (option A)) :
  Forall (fun x => x = None) xs -> omap id xs = [].
Proof. induction 1 as [|x xs -> _ IH]; [done|]. exact IH. Qed.

(** Looking up the keys of the entries of a map gives their values. *)
Lemma range_values_entries {V} (m : gmap string V) (kvs : list (string * V)) :
  Forall (fun kv => m !! kv.1 = Some kv.2) kvs ->
  range_values m kvs.*1 = kvs.*2.
Proof.
  unfold range_values. induction 1 as [|[k v] kvs Hkv _ IH]; [done|].
  cbn in *. by rewrite Hkv, IH.
Qed.

(** A loop over a map sees every value of the map once. *)
Lemma range_values_Permutation {V} (m : gmap string V) (keys : list string) :
  key_order m keys -> range_values m keys ≡ₚ (map_to_list m).*2.
Proof.
  unfold key_order. intros Hkeys.
  rewrite <- (range_values_entries m (map_to_list m)).
  - unfold range_values. by rewrite Hkeys.
  - apply Forall_forall. intros [k v] Hin. by apply elem_of_map_to_list in Hin.
Qed.

(** C8: for every order that the loops over the share maps can take,
    [GenerateTemplateConfig] is a total function; its resource list is the
    directory shares, then the file shares, each group in the order its loop
    took, which is some order of the entries of the map, followed by the
    mounts in controller and slot order, nil entries skipped; it has one
    element for each non-nil entry, so none when nothing is attached. *)
Theorem GenerateTemplateConfig_shares_then_mounts (order : share_order) (vm : W) :
  possible_order vm order ->
  let dirs := omap id (range_values (vsmbDirShares vm) (dir_keys order)) in
  let files := omap id (range_values (vsmbFileShares vm) (file_keys order)) in
  let mounts := omap id (concat (scsiLocations vm)) in
  UVMID (GenerateTemplateConfig order vm) = ID vm /\
  Resources (GenerateTemplateConfig order vm)
  = (PtrVSMBShare <$> dirs ++ files) ++ (PtrSCSIMount <$> mounts) /\
  dirs ≡ₚ omap id (map_to_list (vsmbDirShares vm)).*2 /\
  files ≡ₚ omap id (map_to_list (vsmbFileShares vm)).*2 /\
  length (Resources (GenerateTemplateConfig order vm))
  = length (filter is_Some (map_to_list (vsmbDirShares vm)).*2)
    + length (filter is_Some (map_to_list (vsmbFileShares vm)).*2)
    + length (filter is_Some (concat (scsiLocations vm))).
Proof.
  intros [Hdir Hfile]. cbv zeta.
  pose proof (range_values_Permutation _ _ Hdir) as Hd.
  pose proof (range_values_Permutation _ _ Hfile) as Hf.
  split; [done|]. split; [apply GenerateTemplateConfig_Resources|].
  split; [by rewrite Hd|]. split; [by rewrite Hf|].
  rewrite GenerateTemplateConfig_Resources, !length_app, !length_fmap, length_app.
  rewrite <- !length_omap_id. by rewrite Hd, Hf.
Qed.

(** With no resource attached, the list is empty, whatever the order. *)
Lemma GenerateTemplateConfig_no_attachments (order : share_order) (vm : W) :
  possible_order vm order ->
  Forall (fun x => x = None) (map_to_list (vsmbDirShares vm)).*2 ->
  Forall (fun x => x = None) (map_to_list (vsmbFileShares vm)).*2 ->
  Forall (fun x => x = None) (concat (scsiLocations vm)) ->
  Resources (GenerateTemplateConfig order vm) = [].
Proof.
  intros [Hdir Hfile] Hd Hf Hm.
  rewrite <- (range_values_Permutation _ _ Hdir) in Hd.
  rewrite <- (range_values_Permutation _ _ Hfile) in Hf.
  by rewrite GenerateTemplateConfig_Resources, (omap_id_all_None _ Hd),
    (omap_id_all_None _ Hf), (omap_id_all_None _ Hm).
Qed.

(** *** Saving as a template *)

Import observe_more.

(** X12: [SaveAsTemplate] pauses first and saves, with the template
    options, only a guest that it has paused.  It returns success only after
    a save that succeeded; an error it returns is the error of the step that
    failed, wrapped with that step's message. *)
Theorem SaveAsTemplate_pauses_first (t : traced W) :
  exists new,
    trace (snd (SaveAsTemplate t)) = trace t ++ new /\
    match new with
    | [(hcsSystem_Pause, Failed e)] =>
        fst (SaveAsTemplate t) = Returned (Some (errors_Wrap e "error pausing the VM")) /\
        Error (errors_Wrap e "error pausing the VM")
        = "error pausing the VM: " +:+ Error e
    | [(hcsSystem_Pause, Succeeded); (hcsSystem_Save options, Failed e)] =>
        options = hcsSaveOptions /\
        fst (SaveAsTemplate t) = Returned (Some (errors_Wrap e "error saving the VM")) /\
        Error (errors_Wrap e "error saving the VM")
        = "error saving the VM: " +:+ Error e
    | [(hcsSystem_Pause, Succeeded); (hcsSystem_Save options, Succeeded)] =>
        options = hcsSaveOptions /\ fst (SaveAsTemplate t) = Returned None
    | _ => False
    end.
Proof.
  destruct t as [w tr]. unfold SaveAsTemplate, bind, extern, ret; cbn [host trace].
  destruct (host_Pause w) as [[e|] w1]; cbn [fst snd host trace reply_of_error].
  { eexists. split; [reflexivity|]. done. }
  destruct (host_Save hcsSaveOptions w1) as [[e|] w2]; cbn [fst snd trace reply_of_error];
    (eexists; split; [rewrite <- app_assoc; reflexivity|]); done.
Qed.

End UvmProofs.

(** ** Network namespace setup *)

Section NetworkProofs.
Context {W : Type} `{Host W} `{hns.Constants}.
Import hcsoci.

Lemma fetches_observed (tr : list entry) :
  forallb is_endpoint_fetch tr = true ->
  provider_lookups tr = [] /\ fetched_namespaces tr = [] /\
  added_namespaces tr = [] /\ added_endpoints tr = [].
Proof.
  induction tr as [|[c r] tr IH]; [done|].
  cbn [forallb]. intros [Hc Htr]%andb_prop. destruct (IH Htr) as (?&?&?&?).
  destruct c; try discriminate Hc.
  unfold provider_lookups, fetched_namespaces, added_namespaces, added_endpoints in *.
  cbn. by destruct r.
Qed.

Lemma GetNamespaceEndpoints_range_trace (ids : list string) :
  forall (endpoints : list hns.HNSEndpoint) (t : traced W),
  exists r w tr,
    GetNamespaceEndpoints_range ids endpoints t
    = (Returned r, mkTraced w (trace t ++ tr)) /\
    forallb is_endpoint_fetch tr = true /\
    forall eps, r = Ok eps -> eps = endpoints ++ fetched_endpoints tr.
Proof.
  induction ids as [|id ids IH]; intros endpoints [w0 tr0].
  - exists (Ok endpoints), w0, []. cbn. rewrite !app_nil_r.
    split; [done|]. split; [done|]. by intros ? [= <-].
  - cbn [GetNamespaceEndpoints_range]. unfold bind, extern_val at 1.
    cbn [host trace].
    destruct (host_GetHNSEndpointByID id w0) as [[ep|e] w1] eqn:Hget;
      cbn [reply_of_result].
    + destruct (IH (endpoints ++ [ep])
                   (mkTraced w1 (tr0 ++ [(hns_GetHNSEndpointByID id, GotEndpoint ep)])))
        as (r & w & tr & -> & Hf & Heps).
      exists r, w, ((hns_GetHNSEndpointByID id, GotEndpoint ep) :: tr).
      cbn [trace reply_of_result]. rewrite <- app_assoc. split; [done|]. split; [done|].
      intros eps Hr. rewrite (Heps eps Hr), <- app_assoc. done.
    + exists (Err e), w1, [(hns_GetHNSEndpointByID id, Failed e)].
      split; [done|]. split; [done|]. intros ? [=].
Qed.

Lemma GetNamespaceEndpoints_trace (netNS : string) (t : traced W) :
  exists r r0 w tr,
    GetNamespaceEndpoints netNS t
    = (Returned r, mkTraced w (trace t ++ (hns_GetNamespaceEndpoints netNS, r0) :: tr)) /\
    forallb is_endpoint_fetch tr = true /\
    forall eps, r = Ok eps -> eps = fetched_endpoints tr.
Proof.
  destruct t as [w0 tr0]. unfold GetNamespaceEndpoints, bind, extern_val at 1.
  cbn [host trace].
  destruct (host_GetNamespaceEndpoints netNS w0) as [[ids|e] w1];
    cbn [reply_of_result].
  - destruct (GetNamespaceEndpoints_range_trace ids []
                (mkTraced w1 (tr0 ++ [(hns_GetNamespaceEndpoints netNS, GotIds ids)])))
      as (r & w & tr & -> & Hf & Heps).
    exists r, (GotIds ids), w, tr. cbn [trace]. rewrite <- app_assoc.
    split; [done|]. split; [done|]. exact Heps.
  - exists (Err e), (Failed e), w1, []. split; [done|]. split; [done|]. intros ? [=].
Qed.


(** What a trace [c :: fetches ++ tail] shows, for a call [c] that is not an
    endpoint fetch. *)
Lemma observed_split (c : entry) (tr tail : list entry) :
  forallb is_endpoint_fetch tr = true ->
  provider_lookups (c :: tr ++ tail) = provider_lookups [c] ++ provider_lookups tail /\
  fetched_namespaces (c :: tr ++ tail)
    = fetched_namespaces [c] ++ fetched_namespaces tail /\
  added_namespaces (c :: tr ++ tail) = added_namespaces [c] ++ added_namespaces tail /\
  added_endpoints (c :: tr ++ tail) = added_endpoints [c] ++ added_endpoints tail /\
  fetched_endpoints (c :: tr ++ tail)
    = fetched_endpoints [c] ++ fetched_endpoints tr ++ fetched_endpoints tail.
Proof.
  intros Hf. destruct (fetches_observed tr Hf) as (H1 & H2 & H3 & H4).
  unfold provider_lookups, fetched_namespaces, added_namespaces, added_endpoints,
    fetched_endpoints in *.
  change (c :: tr ++ tail) with ([c] ++ tr ++ tail).
  rewrite !omap_app, H1, H2, H3, H4. done.
Qed.

Lemma observed_fetches (c : entry) (tr : list entry) :
  forallb is_endpoint_fetch tr = true ->
  provider_lookups (c :: tr) = provider_lookups [c] /\
  fetched_namespaces (c :: tr) = fetched_namespaces [c] /\
  added_namespaces (c :: tr) = added_namespaces [c] /\
  added_endpoints (c :: tr) = added_endpoints [c] /\
  fetched_endpoints (c :: tr) = fetched_endpoints [c] ++ fetched_endpoints tr.
Proof.
  intros Hf. destruct (observed_split c tr [] Hf) as (H1 & H2 & H3 & H4 & H5).
  rewrite (app_nil_r tr) in H1, H2, H3, H4, H5.
  rewrite H1, H2, H3, H4, H5.
  unfold provider_lookups, fetched_namespaces, added_namespaces, added_endpoints,
    fetched_endpoints. cbn [omap list_omap]. by rewrite !app_nil_r.
Qed.

(** Runs [SetupNetworkNamespace] in the goal along every path: one goal per
    combination of answers of the provider and of the guest. *)
Ltac run_setup :=
  let r := fresh "r" in let r0 := fresh "r0" in let w1 := fresh "w" in
  let tr1 := fresh "fetches" in let Hget := fresh "Hget" in
  let Hf := fresh "Hfetch" in let Heps := fresh "Heps" in
  let Hrun := fresh "Hrun" in
  match goal with
  | |- context [SetupNetworkNamespace ?nsid ?a ?b (mkTraced ?w [])] =>
      destruct (GetNamespaceEndpoints_trace nsid (mkTraced w []))
        as (r & r0 & w1 & tr1 & Hget & Hf & Heps);
      destruct (SetupNetworkNamespace nsid a b (mkTraced w [])) as [?o ?t] eqn:Hrun;
      revert Hrun; unfold SetupNetworkNamespace, bind at 1; rewrite Hget; clear Hget
  end;
  destruct r as [?eps|?e]; [specialize (Heps _ eq_refl); subst|clear Heps];
  cbn [negb orb trace app];
  unfold bind, extern_val, extern, log, modify, ret; cbn [host trace];
  repeat match goal with
         | |- context [host_GetNamespaceByID ?a ?b] =>
             destruct (host_GetNamespaceByID a b) as [[?ns|?e] ?w];
             cbn [host trace reply_of_result]
         | |- context [host_AddNetNSRaw ?a ?b] =>
             destruct (host_AddNetNSRaw a b) as [[?e|] ?w];
             cbn [host trace reply_of_error]
         | |- context [host_AddEndpointsToNS ?a ?b ?c] =>
             destruct (host_AddEndpointsToNS a b c) as [[?e|] ?w];
             cbn [host trace reply_of_error]
         | |- context [host_RemoveNetNS ?a ?b] =>
             destruct (host_RemoveNetNS a b) as [[?e|] ?w];
             cbn [host trace reply_of_error]
         end;
  intros Hrun; injection Hrun as <- <-;
  cbn [fst snd trace]; rewrite <- ?app_assoc; cbn [app].

(** Rewrites what the trace of the goal shows, entry by entry. *)
Ltac observe :=
  match goal with
  | Hf : forallb is_endpoint_fetch ?f = true |- _ =>
      let E1 := fresh in let E2 := fresh in let E3 := fresh in
      let E4 := fresh in let E5 := fresh in
      first
        [ match goal with
          | |- context [?c :: f ++ ?tail] =>
              destruct (observed_split c f tail Hf) as (E1 & E2 & E3 & E4 & E5)
          end
        | match goal with
          | |- context [?c :: f] =>
              destruct (observed_fetches c f Hf) as (E1 & E2 & E3 & E4 & E5)
          end ];
      rewrite ?E1, ?E2, ?E3, ?E4, ?E5; clear E1 E2 E3 E4 E5
  end.

Lemma SetupNetworkNamespace_lookups (w : W) (nsid : string) (isTemplate isClone : bool) :
  let tr := trace (snd (SetupNetworkNamespace nsid isTemplate isClone (mkTraced w []))) in
  (exists r rest, tr = (hns_GetNamespaceEndpoints nsid, r) :: rest) /\
  Forall (eq nsid) (provider_lookups tr).
Proof.
  cbv zeta. destruct isTemplate, isClone; run_setup;
    (split; [eauto|]); observe; cbn; repeat constructor.
Qed.

Ltac settle := observe; cbn; rewrite ?app_nil_r; repeat constructor.

Lemma SetupNetworkNamespace_template (w : W) (nsid : string) :
  let cloning := hns.CLONING_DEFAULT_NETWORK_NAMESPACE_ID in
  let tr := trace (snd (SetupNetworkNamespace nsid true false (mkTraced w []))) in
  fetched_namespaces tr = [] /\ added_namespaces tr = [] \/
  (exists ns, fetched_namespaces tr = [ns] /\ added_namespaces tr = [set_Id cloning ns]).
Proof. cbv zeta. run_setup; observe; cbn; eauto. Qed.

Lemma SetupNetworkNamespace_clone (w : W) (nsid : string) (isTemplate : bool) :
  let tr := trace (snd (SetupNetworkNamespace nsid isTemplate true (mkTraced w []))) in
  fetched_namespaces tr = [] /\ added_namespaces tr = [].
Proof. cbv zeta. destruct isTemplate; run_setup; observe; cbn; eauto. Qed.

Lemma SetupNetworkNamespace_ordinary (w : W) (nsid : string) :
  let tr := trace (snd (SetupNetworkNamespace nsid false false (mkTraced w []))) in
  added_namespaces tr = fetched_namespaces tr /\
  Forall (eq (nsid, fetched_endpoints tr)) (added_endpoints tr).
Proof. cbv zeta. run_setup; split; settle. Qed.

Lemma SetupNetworkNamespace_rewritten (w : W) (nsid : string) (isTemplate isClone : bool) :
  isTemplate || isClone = true ->
  let cloning := hns.CLONING_DEFAULT_NETWORK_NAMESPACE_ID in
  let tr := trace (snd (SetupNetworkNamespace nsid isTemplate isClone (mkTraced w []))) in
  Forall (eq (cloning, set_Namespace cloning <$> fetched_endpoints tr))
         (added_endpoints tr).
Proof.
  cbv zeta. destruct isTemplate, isClone; try discriminate; intros _;
    run_setup; settle.
Qed.

Lemma SetupNetworkNamespace_success (w : W) (nsid : string) (isTemplate isClone : bool) :
  let run := SetupNetworkNamespace nsid isTemplate isClone (mkTraced w []) in
  fst run = Returned None ->
  length (added_endpoints (trace (snd run))) = 1 /\
  length (added_namespaces (trace (snd run))) = if isClone then 0 else 1.
Proof.
  cbv zeta. destruct isTemplate, isClone; run_setup; cbn [fst];
    try discriminate; intros _; observe; cbn; auto.
Qed.

(** What a run does when the lookups and the hot-adds succeed: a template
    or an ordinary guest. *)
Lemma SetupNetworkNamespace_adds (w : W) (nsid : string) (isTemplate : bool)
  (eps : list hns.HNSEndpoint) (t1 : traced W) (ns : hcn.HostComputeNamespace)
  (w2 w3 w4 : W) :
  let cloning := hns.CLONING_DEFAULT_NETWORK_NAMESPACE_ID in
  let id := if isTemplate then cloning else nsid in
  let ns' := if isTemplate then set_Id cloning ns else ns in
  let eps' := if isTemplate then set_Namespace cloning <$> eps else eps in
  GetNamespaceEndpoints nsid (mkTraced w []) = (Returned (Ok eps), t1) ->
  host_GetNamespaceByID nsid (host t1) = (Ok ns, w2) ->
  host_AddNetNSRaw ns' w2 = (None, w3) ->
  host_AddEndpointsToNS id eps' w3 = (None, w4) ->
  SetupNetworkNamespace nsid isTemplate false (mkTraced w [])
  = (Returned None,
     mkTraced w4 (trace t1 ++ [(hcn_GetNamespaceByID nsid, GotNamespace ns);
                               (AddNetNSRaw ns', Succeeded);
                               (AddEndpointsToNS id eps', Succeeded)])).
Proof.
  cbv zeta. intros Hget Hns Hadd Heps.
  unfold SetupNetworkNamespace, bind at 1. rewrite Hget.
  destruct isTemplate; cbn [negb orb];
    unfold bind, extern_val, extern, ret; cbn [host trace];
    rewrite Hns; cbn [host trace reply_of_result]; rewrite Hadd;
    cbn [host trace reply_of_error];
    change (map (set_Namespace hns.CLONING_DEFAULT_NETWORK_NAMESPACE_ID) eps)
      with (set_Namespace hns.CLONING_DEFAULT_NETWORK_NAMESPACE_ID <$> eps);
    rewrite Heps; cbn [trace reply_of_error]; by rewrite <- !app_assoc.
Qed.

(** The same for a clone, whatever the template flag. *)
Lemma SetupNetworkNamespace_adds_to_clone (w : W) (nsid : string) (isTemplate : bool)
  (eps : list hns.HNSEndpoint) (t1 : traced W) (w4 : W) :
  let cloning := hns.CLONING_DEFAULT_NETWORK_NAMESPACE_ID in
  GetNamespaceEndpoints nsid (mkTraced w []) = (Returned (Ok eps), t1) ->
  host_AddEndpointsToNS cloning (set_Namespace cloning <$> eps) (host t1) = (None, w4) ->
  SetupNetworkNamespace nsid isTemplate true (mkTraced w [])
  = (Returned None,
     mkTraced w4 (trace t1 ++ [(AddEndpointsToNS cloning (set_Namespace cloning <$> eps),
                                Succeeded)])).
Proof.
  cbv zeta. intros Hget Heps.
  unfold SetupNetworkNamespace, bind at 1. rewrite Hget.
  destruct isTemplate; cbn [negb orb];
    unfold bind, extern, ret; cbn [host trace];
    change (map (set_Namespace hns.CLONING_DEFAULT_NETWORK_NAMESPACE_ID) eps)
      with (set_Namespace hns.CLONING_DEFAULT_NETWORK_NAMESPACE_ID <$> eps);
    by rewrite Heps.
Qed.

Lemma set_Id_Id (id : string) (ns : hcn.HostComputeNamespace) :
  hcn.Id (set_Id id ns) = id.
Proof. reflexivity. Qed.

Lemma set_Namespace_reference (id : string) (ep : hns.HNSEndpoint) :
  hns.ep_Namespace (set_Namespace id ep) = Some (hns.mkNamespace id).
Proof. reflexivity. Qed.

(** C2: in every run the provider is asked by the real id, the endpoints
    first.  For a template the namespace hot-added is the fetched one with
    its id overwritten by the reserved constant; for a clone no namespace is
    hot-added; for both, the endpoints are hot-added under the reserved
    constant with every namespace reference rewritten to it.  With both flags
    false the fetched namespace and endpoints are hot-added unchanged under
    the real id. *)
Theorem SetupNetworkNamespace_guest_visible_id (w : W) (nsid : string) :
  let cloning := hns.CLONING_DEFAULT_NETWORK_NAMESPACE_ID in
  let run isTemplate isClone :=
    SetupNetworkNamespace nsid isTemplate isClone (mkTraced w []) in
  let tr isTemplate isClone := trace (snd (run isTemplate isClone)) in
  let rewritten t := set_Namespace cloning <$> fetched_endpoints t in
  (* every kind of guest: the provider is asked by the real id *)
  (forall isTemplate isClone,
     (exists r rest,
        tr isTemplate isClone = (hns_GetNamespaceEndpoints nsid, r) :: rest) /\
     Forall (eq nsid) (provider_lookups (tr isTemplate isClone))) /\
  (* template *)
  (added_namespaces (tr true false)
   = set_Id cloning <$> fetched_namespaces (tr true false) /\
   Forall (eq (cloning, rewritten (tr true false))) (added_endpoints (tr true false))) /\
  (* clone *)
  (added_namespaces (tr false true) = [] /\
   Forall (eq (cloning, rewritten (tr false true))) (added_endpoints (tr false true))) /\
  (* ordinary guest *)
  (added_namespaces (tr false false) = fetched_namespaces (tr false false) /\
   Forall (eq (nsid, fetched_endpoints (tr false false)))
          (added_endpoints (tr false false))) /\
  (* what the rewriting writes *)
  (forall ns, hcn.Id (set_Id cloning ns) = cloning) /\
  (forall ep, hns.ep_Namespace (set_Namespace cloning ep)
              = Some (hns.mkNamespace cloning)) /\
  (* a run that succeeds has added the endpoints once, and the namespace
     once unless the guest is a clone *)
  (forall isTemplate isClone,
     match fst (run isTemplate isClone) with
     | Returned None =>
         length (added_endpoints (tr isTemplate isClone)) = 1 /\
         length (added_namespaces (tr isTemplate isClone))
         = (if isClone then 0 else 1)
     | _ => True
     end) /\
  (* when the provider answers the lookups and the guest accepts the
     hot-adds, a template or an ordinary guest gets the namespace and then
     the endpoints, and the run returns nil *)
  (forall (isTemplate : bool) (eps : list hns.HNSEndpoint) (t1 : traced W)
          (ns : hcn.HostComputeNamespace) (w2 w3 w4 : W),
     let id := if isTemplate then cloning else nsid in
     let ns' := if isTemplate then set_Id cloning ns else ns in
     let eps' := if isTemplate then set_Namespace cloning <$> eps else eps in
     GetNamespaceEndpoints nsid (mkTraced w []) = (Returned (Ok eps), t1) ->
     host_GetNamespaceByID nsid (host t1) = (Ok ns, w2) ->
     host_AddNetNSRaw ns' w2 = (None, w3) ->
     host_AddEndpointsToNS id eps' w3 = (None, w4) ->
     run isTemplate false
     = (Returned None,
        mkTraced w4 (trace t1 ++ [(hcn_GetNamespaceByID nsid, GotNamespace ns);
                                  (AddNetNSRaw ns', Succeeded);
                                  (AddEndpointsToNS id eps', Succeeded)]))) /\
  (* and a clone gets the endpoints alone *)
  (forall eps t1 w4,
     GetNamespaceEndpoints nsid (mkTraced w []) = (Returned (Ok eps), t1) ->
     host_AddEndpointsToNS cloning (set_Namespace cloning <$> eps) (host t1)
     = (None, w4) ->
     run false true
     = (Returned None,
        mkTraced w4 (trace t1 ++ [(AddEndpointsToNS cloning
                                     (set_Namespace cloning <$> eps), Succeeded)]))).
Proof.
  cbv zeta.
  split; [|split; [|split; [|split; [|split; [|split; [|split; [|split]]]]]]];
    [ | | | | | | |intros; by eapply SetupNetworkNamespace_adds
     |intros; by eapply SetupNetworkNamespace_adds_to_clone];
    repeat split.
  - apply SetupNetworkNamespace_lookups.
  - apply SetupNetworkNamespace_lookups.
  - destruct (SetupNetworkNamespace_template w nsid) as [[-> ->]|(ns & -> & ->)]; done.
  - by apply SetupNetworkNamespace_rewritten.
  - apply SetupNetworkNamespace_clone.
  - by apply SetupNetworkNamespace_rewritten.
  - apply SetupNetworkNamespace_ordinary.
  - apply SetupNetworkNamespace_ordinary.
  - intros isTemplate isClone.
    destruct (fst (SetupNetworkNamespace nsid isTemplate isClone (mkTraced w [])))
      as [[e|]|msg] eqn:Hres; try done.
    by apply SetupNetworkNamespace_success.
Qed.




(** *** Further properties of the namespace setup *)

Import observe_more.

Lemma failures_app (tr1 tr2 : list entry) :
  failures (tr1 ++ tr2) = failures tr1 ++ failures tr2.
Proof. apply omap_app. Qed.

Lemma GetNamespaceEndpoints_range_calls (ids : list string) :
  forall (endpoints : list hns.HNSEndpoint) (t : traced W),
  exists r w tr k,
    GetNamespaceEndpoints_range ids endpoints t
    = (Returned r, mkTraced w (trace t ++ tr)) /\
    tr.*1 = hns_GetHNSEndpointByID <$> take k ids /\
    forallb is_endpoint_fetch tr = true /\
    match r with
    | Ok eps =>
        k = length ids /\ failures tr = [] /\
        eps = endpoints ++ fetched_endpoints tr /\
        length (fetched_endpoints tr) = length ids
    | Err e =>
        exists before id, tr = before ++ [(hns_GetHNSEndpointByID id, Failed e)] /\
                          failures before = []
    end.
Proof.
  induction ids as [|id ids IH]; intros endpoints [w0 tr0].
  - exists (Ok endpoints), w0, [], 0. cbn. by rewrite !app_nil_r.
  - cbn [GetNamespaceEndpoints_range]. unfold bind, extern_val at 1.
    cbn [host trace].
    destruct (host_GetHNSEndpointByID id w0) as [[ep|e] w1] eqn:Hget;
      cbn [reply_of_result].
    + destruct (IH (endpoints ++ [ep])
                   (mkTraced w1 (tr0 ++ [(hns_GetHNSEndpointByID id, GotEndpoint ep)])))
        as (r & w & tr & k & -> & Hcalls & Hf & Hr).
      exists r, w, ((hns_GetHNSEndpointByID id, GotEndpoint ep) :: tr), (S k).
      cbn [trace]. rewrite <- app_assoc. split; [done|].
      split; [cbn; by rewrite Hcalls|]. split; [done|].
      destruct r as [eps|e].
      * destruct Hr as (-> & Hfail & -> & Hlen).
        change (fetched_endpoints ((hns_GetHNSEndpointByID id, GotEndpoint ep) :: tr))
          with (ep :: fetched_endpoints tr).
        split; [done|]. split; [exact Hfail|].
        split; [by rewrite <- app_assoc|]. cbn [length]. by rewrite Hlen.
      * destruct Hr as (before & id' & -> & Hfail).
        by exists ((hns_GetHNSEndpointByID id, GotEndpoint ep) :: before), id'.
    + exists (Err e), w1, [(hns_GetHNSEndpointByID id, Failed e)], 1.
      split; [done|]. split; [done|]. split; [done|].
      by exists [], id.
Qed.


Lemma failures_cons_app (c : entry) (tr tail : list entry) :
  failures (c :: tr ++ tail) = failures (c :: tr) ++ failures tail.
Proof. apply (failures_app (c :: tr) tail). Qed.


(** The calls of [GetNamespaceEndpoints] up to the first that fails. *)
Lemma GetNamespaceEndpoints_failures (netNS : string) (t : traced W) :
  exists r r0 w tr,
    GetNamespaceEndpoints netNS t
    = (Returned r, mkTraced w (trace t ++ (hns_GetNamespaceEndpoints netNS, r0) :: tr)) /\
    forallb is_endpoint_fetch tr = true /\
    match r with
    | Ok _ => failures ((hns_GetNamespaceEndpoints netNS, r0) :: tr) = []
    | Err e =>
        exists before c,
          (hns_GetNamespaceEndpoints netNS, r0) :: tr = before ++ [(c, Failed e)] /\
          failures before = [] /\ is_endpoint_add c = false
    end.
Proof.
  destruct t as [w0 tr0]. unfold GetNamespaceEndpoints, bind, extern_val at 1.
  cbn [host trace].
  destruct (host_GetNamespaceEndpoints netNS w0) as [[ids|e] w1];
    cbn [reply_of_result].
  - destruct (GetNamespaceEndpoints_range_calls ids []
                (mkTraced w1 (tr0 ++ [(hns_GetNamespaceEndpoints netNS, GotIds ids)])))
      as (r & w & tr & k & -> & Hcalls & Hf & Hr).
    exists r, (GotIds ids), w, tr. cbn [trace]. rewrite <- app_assoc.
    split; [done|]. split; [done|].
    destruct r as [eps|e].
    + destruct Hr as (_ & Hfail & _). exact Hfail.
    + destruct Hr as (before & id & -> & Hfail).
      by exists ((hns_GetNamespaceEndpoints netNS, GotIds ids) :: before),
                (hns_GetHNSEndpointByID id).
  - exists (Err e), (Failed e), w1, []. split; [done|]. split; [done|].
    by exists [], (hns_GetNamespaceEndpoints netNS).
Qed.

(** Runs [SetupNetworkNamespace] in the goal along every path, keeping what
    is known of the failures among the lookups. *)
Ltac run_setup_failures :=
  let r := fresh "r" in let r0 := fresh "r0" in let w1 := fresh "w" in
  let tr1 := fresh "fetches" in let Hget := fresh "Hget" in
  let Hf := fresh "Hfetch" in let Hfail := fresh "Hfail" in
  let Hrun := fresh "Hrun" in
  let before := fresh "before" in let c := fresh "c" in
  let Hsplit := fresh "Hsplit" in let Hadd := fresh "Hadd" in
  match goal with
  | |- context [SetupNetworkNamespace ?nsid ?a ?b (mkTraced ?w [])] =>
      destruct (GetNamespaceEndpoints_failures nsid (mkTraced w []))
        as (r & r0 & w1 & tr1 & Hget & Hf & Hfail);
      destruct (SetupNetworkNamespace nsid a b (mkTraced w [])) as [?o ?t] eqn:Hrun;
      revert Hrun; unfold SetupNetworkNamespace, bind at 1; rewrite Hget; clear Hget
  end;
  destruct r as [?eps|?e];
  [|destruct Hfail as (before & c & Hsplit & Hfail & Hadd)];
  cbn [negb orb trace app];
  unfold bind, extern_val, extern, log, modify, ret; cbn [host trace];
  repeat match goal with
         | |- context [host_GetNamespaceByID ?a ?b] =>
             destruct (host_GetNamespaceByID a b) as [[?ns|?e] ?w];
             cbn [host trace reply_of_result]
         | |- context [host_AddNetNSRaw ?a ?b] =>
             destruct (host_AddNetNSRaw a b) as [[?e|] ?w];
             cbn [host trace reply_of_error]
         | |- context [host_AddEndpointsToNS ?a ?b ?c] =>
             destruct (host_AddEndpointsToNS a b c) as [[?e|] ?w];
             cbn [host trace reply_of_error]
         | |- context [host_RemoveNetNS ?a ?b] =>
             destruct (host_RemoveNetNS a b) as [[?e|] ?w];
             cbn [host trace reply_of_error]
         end;
  intros Hrun; injection Hrun as <- <-;
  cbn [fst snd trace]; rewrite <- ?app_assoc; cbn [app].





(** C10: with both flags set [SetupNetworkNamespace] is not rejected: from
    every state it runs exactly as with [isClone] alone (same result, same
    calls, same final host state).  It hot-adds no namespace and hot-adds
    the rewritten endpoints under the reserved constant.  When the provider
    answers the lookups and the guest accepts the hot-add, the run makes
    that hot-add and returns nil; an error it returns is never its own, it
    is the error of the first call that failed. *)
Theorem SetupNetworkNamespace_both_flags (w : W) (nsid : string) :
  let cloning := hns.CLONING_DEFAULT_NETWORK_NAMESPACE_ID in
  let both := SetupNetworkNamespace nsid true true (mkTraced w []) in
  (forall t : traced W,
     SetupNetworkNamespace nsid true true t = SetupNetworkNamespace nsid false true t) /\
  added_namespaces (trace (snd both)) = [] /\
  Forall (eq (cloning, set_Namespace cloning <$> fetched_endpoints (trace (snd both))))
         (added_endpoints (trace (snd both))) /\
  match fst both with
  | Returned None => length (added_endpoints (trace (snd both))) = 1
  | _ => True
  end /\
  (forall eps t1 w4,
     GetNamespaceEndpoints nsid (mkTraced w []) = (Returned (Ok eps), t1) ->
     host_AddEndpointsToNS cloning (set_Namespace cloning <$> eps) (host t1)
     = (None, w4) ->
     both
     = (Returned None,
        mkTraced w4 (trace t1 ++ [(AddEndpointsToNS cloning
                                     (set_Namespace cloning <$> eps), Succeeded)]))) /\
  fst both = Returned (head (failures (trace (snd both)))).
Proof.
  cbv zeta. split; [reflexivity|]. split; [apply SetupNetworkNamespace_clone|].
  split; [by apply SetupNetworkNamespace_rewritten|]. split; [|split].
  - destruct (fst (SetupNetworkNamespace nsid true true (mkTraced w [])))
      as [[e|]|msg] eqn:Hres; try done.
    by apply SetupNetworkNamespace_success.
  - intros eps t1 w4 Hget Hadd. by eapply SetupNetworkNamespace_adds_to_clone.
  - run_setup_failures;
      rewrite ?Hsplit, ?failures_cons_app, ?failures_app, ?Hfail; reflexivity.
Qed.

End NetworkProofs.

(** ** The save-as-template sequence *)

Section ShimProofs.
Context {W : Type} `{Host W}.
Import shim.

(** [SaveTemplateConfig] on an id that has a stored configuration. *)
Lemma SaveTemplateConfig_stored_panics (utc : UVMTemplateConfig)
  (registry : clone.registry_state) (vals : gmap string clone.persistedUVMConfig)
  (v : clone.persistedUVMConfig) :
  regstate.open_error registry = None ->
  regstate.ids registry !! UVMID utc = Some vals ->
  vals !! clone.configKey = Some v ->
  exists registry',
    clone.SaveTemplateConfig utc registry = (Panicked nil_dereference, registry') /\
    regstate.ids registry' = regstate.ids registry.
Proof.
  intros Hop Hid Hv. unfold clone.SaveTemplateConfig, bind at 1.
  erewrite loadPersistedUVMConfig_present; [cbn; eauto|done|exact Hid|exact Hv].
Qed.

(** C9: [saveAsTemplate] removes the network adapters, closes the guest
    connection, saves the template configuration captured at that point,
    pauses the guest and saves it, in this order, each step on the host as
    the step before left it.  A step of the host that fails ends the run:
    its error is returned (wrapped with the step's message for pause and
    save), no later step runs and nothing is rolled back.  The save of the
    configuration ends the run too when it does not return nil, but not
    always with an error: on a host whose id already has a stored
    configuration it panics with a nil dereference, and so does the run. *)
Theorem saveAsTemplate_sequence (order : share_order) (w : W)
  (registry : clone.registry_state) :
  let r1 := host_RemoveAllNICs w in
  let r2 := host_CloseGCSConnection r1.2 in
  let utc := GenerateTemplateConfig order r2.2 in
  let r3 := clone.SaveTemplateConfig utc registry in
  let r4 := host_Pause r2.2 in
  let r5 := host_Save hcsSaveOptions r4.2 in
  let ended o (uvm : W) tr reg := (o, mkState (mkTraced uvm tr) reg) in
  saveAsTemplate order (mkState (mkTraced w []) registry)
  = match r1.1, r2.1, r3.1, r4.1, r5.1 with
    | Some e, _, _, _, _ =>
        ended (Returned (Some e)) r1.2 [(RemoveAllNICs, Failed e)] registry
    | None, Some e, _, _, _ =>
        ended (Returned (Some e)) r2.2
              [(RemoveAllNICs, Succeeded); (CloseGCSConnection, Failed e)] registry
    | None, None, Returned (Some e), _, _ =>
        ended (Returned (Some e)) r2.2
              [(RemoveAllNICs, Succeeded); (CloseGCSConnection, Succeeded);
               (clone_SaveTemplateConfig utc, Failed e)] r3.2
    | None, None, Panicked msg, _, _ =>
        ended (Panicked msg) r2.2
              [(RemoveAllNICs, Succeeded); (CloseGCSConnection, Succeeded);
               (clone_SaveTemplateConfig utc, Crashed msg)] r3.2
    | None, None, Returned None, Some e, _ =>
        ended (Returned (Some (errors_Wrap e "error pausing the VM"))) r4.2
              [(RemoveAllNICs, Succeeded); (CloseGCSConnection, Succeeded);
               (clone_SaveTemplateConfig utc, Succeeded); (hcsSystem_Pause, Failed e)]
              r3.2
    | None, None, Returned None, None, Some e =>
        ended (Returned (Some (errors_Wrap e "error saving the VM"))) r5.2
              [(RemoveAllNICs, Succeeded); (CloseGCSConnection, Succeeded);
               (clone_SaveTemplateConfig utc, Succeeded); (hcsSystem_Pause, Succeeded);
               (hcsSystem_Save hcsSaveOptions, Failed e)] r3.2
    | None, None, Returned None, None, None =>
        ended (Returned None) r5.2
              [(RemoveAllNICs, Succeeded); (CloseGCSConnection, Succeeded);
               (clone_SaveTemplateConfig utc, Succeeded); (hcsSystem_Pause, Succeeded);
               (hcsSystem_Save hcsSaveOptions, Succeeded)] r3.2
    end /\
  (forall vals v,
     regstate.open_error registry = None ->
     regstate.ids registry !! ID r2.2 = Some vals ->
     vals !! clone.configKey = Some v ->
     r3.1 = Panicked nil_dereference /\ regstate.ids r3.2 = regstate.ids registry).
Proof.
  cbv zeta. split.
  - unfold saveAsTemplate, SaveAsTemplate, on_host, zoom, clone_SaveTemplateConfig_call,
      extern, bind, get, ret; cbn [st_host st_registry host trace].
    destruct (host_RemoveAllNICs w) as [[e1|] w1];
      cbn [fst snd reply_of_error host trace st_host st_registry app]; [done|].
    destruct (host_CloseGCSConnection w1) as [[e2|] w2];
      cbn [fst snd reply_of_error host trace st_host st_registry app]; [done|].
    destruct (clone.SaveTemplateConfig (GenerateTemplateConfig order w2) registry)
      as [[[e3|]|msg] registry3];
      cbn [fst snd reply_of_error reply_of_outcome host trace st_host st_registry app];
      [done| |done].
    destruct (host_Pause w2) as [[e4|] w4];
      cbn [fst snd reply_of_error host trace st_host st_registry app]; [done|].
    by destruct (host_Save hcsSaveOptions w4) as [[e5|] w5].
  - intros vals v Hop Hid Hv.
    destruct (SaveTemplateConfig_stored_panics
                (GenerateTemplateConfig order (host_CloseGCSConnection
                                                 (host_RemoveAllNICs w).2).2)
                registry vals v Hop Hid Hv) as (registry' & -> & Hids).
    done.
Qed.

(** *** The sequence and the registry together *)

(** Runs [saveAsTemplate] in the goal up to the save of the configuration. *)
Ltac run_save :=
  unfold saveAsTemplate, SaveAsTemplate, on_host, zoom, clone_SaveTemplateConfig_call,
    extern, bind, get, ret; cbn [st_host st_registry host trace].

(** X19: once [saveAsTemplate] has saved the configuration, whether or not
    the pause and the save of the guest succeed after it, the registry had no
    record for the host's id before, and fetching that id from the registry
    the run leaves gives the configuration captured after the guest
    connection was closed. *)
Theorem saveAsTemplate_config_fetchable (order : share_order) (w : W)
  (registry : clone.registry_state) (utc : UVMTemplateConfig) :
  let s := snd (saveAsTemplate order (mkState (mkTraced w []) registry)) in
  let w2 := snd (host_CloseGCSConnection (snd (host_RemoveAllNICs w))) in
  (clone_SaveTemplateConfig utc, Succeeded) ∈ trace (st_host s) ->
  utc = GenerateTemplateConfig order w2 /\
  regstate.ids registry !! ID w2 = None /\
  exists registry',
    clone.FetchTemplateConfig (ID w2) (st_registry s) = (Returned (Ok utc), registry').
Proof.
  cbv zeta. run_save.
  destruct (host_RemoveAllNICs w) as [[e1|] w1];
    cbn [fst snd reply_of_error host trace st_host st_registry app].
  { intros Hin. apply list_elem_of_singleton in Hin. discriminate Hin. }
  destruct (host_CloseGCSConnection w1) as [[e2|] w2];
    cbn [fst snd reply_of_error host trace st_host st_registry app].
  { intros Hin. repeat (apply elem_of_cons in Hin as [Hin|Hin]; [discriminate Hin|]).
    by apply elem_of_nil in Hin. }
  destruct (clone.SaveTemplateConfig (GenerateTemplateConfig order w2) registry)
    as [[[e3|]|msg] registry'] eqn:Hsave;
    cbn [fst snd reply_of_error reply_of_outcome host trace st_host st_registry app];
    [intros Hin; repeat (apply elem_of_cons in Hin as [Hin|Hin]; [discriminate Hin|]);
     by apply elem_of_nil in Hin
    | |intros Hin; repeat (apply elem_of_cons in Hin as [Hin|Hin]; [discriminate Hin|]);
       by apply elem_of_nil in Hin].
  assert (Hfetch : regstate.ids registry !! ID w2 = None /\
            exists registry'',
              clone.FetchTemplateConfig (ID w2) registry'
              = (Returned (Ok (GenerateTemplateConfig order w2)), registry'')).
  { destruct (SaveTemplateConfig_success _ _ _ Hsave) as (Hop1 & Hid & bs & Hbs & Hids).
    split; [exact Hid|].
    erewrite (FetchTemplateConfig_present (ID w2));
      [|done|rewrite Hids; apply lookup_insert_eq|apply lookup_singleton_eq].
    cbn [clone.RawData]. rewrite (encodeTemplateConfig_decodes _ _ Hbs). eauto. }
  destruct (host_Pause w2) as [[e4|] w4];
    cbn [fst snd reply_of_error host trace st_host st_registry app].
  { intros Hin. do 2 (apply elem_of_cons in Hin as [Hin|Hin]; [discriminate Hin|]).
    apply elem_of_cons in Hin as [[= ->]|Hin]; [done|].
    repeat (apply elem_of_cons in Hin as [Hin|Hin]; [discriminate Hin|]).
    by apply elem_of_nil in Hin. }
  destruct (host_Save hcsSaveOptions w4) as [[e5|] w5];
    cbn [fst snd reply_of_error host trace st_host st_registry app];
    intros Hin; (do 2 (apply elem_of_cons in Hin as [Hin|Hin]; [discriminate Hin|]));
    (apply elem_of_cons in Hin as [[= ->]|Hin]; [done|]);
    repeat (apply elem_of_cons in Hin as [Hin|Hin]; [discriminate Hin|]);
    by apply elem_of_nil in Hin.
Qed.

(** X20: on a host whose id already has a stored configuration,
    [saveAsTemplate] does not return: after the network adapters are removed
    and the guest connection is closed, the save of the configuration panics
    with a nil dereference.  The guest is never paused or saved, and the
    records of the registry are unchanged. *)
Theorem saveAsTemplate_registered_id_panics (order : share_order) (w : W)
  (registry : clone.registry_state)
  (vals : gmap string clone.persistedUVMConfig) (v : clone.persistedUVMConfig) :
  let w1 := snd (host_RemoveAllNICs w) in
  let w2 := snd (host_CloseGCSConnection w1) in
  fst (host_RemoveAllNICs w) = None ->
  fst (host_CloseGCSConnection w1) = None ->
  regstate.open_error registry = None ->
  regstate.ids registry !! ID w2 = Some vals ->
  vals !! clone.configKey = Some v ->
  exists s,
    saveAsTemplate order (mkState (mkTraced w []) registry)
    = (Panicked nil_dereference, s) /\
    trace (st_host s)
    = [(RemoveAllNICs, Succeeded); (CloseGCSConnection, Succeeded);
       (clone_SaveTemplateConfig (GenerateTemplateConfig order w2), Crashed nil_dereference)] /\
    host (st_host s) = w2 /\
    regstate.ids (st_registry s) = regstate.ids registry.
Proof.
  cbv zeta. run_save.
  destruct (host_RemoveAllNICs w) as [[e1|] w1];
    cbn [fst snd reply_of_error host trace st_host st_registry app]; [done|]. intros _.
  destruct (host_CloseGCSConnection w1) as [[e2|] w2];
    cbn [fst snd reply_of_error host trace st_host st_registry app]; [done|]. intros _.
  intros Hop Hid Hv.
  assert (Hsave : exists registry',
            clone.SaveTemplateConfig (GenerateTemplateConfig order w2) registry
            = (Panicked nil_dereference, registry') /\
            regstate.ids registry' = regstate.ids registry).
  { unfold clone.SaveTemplateConfig, bind at 1.
    erewrite (loadPersistedUVMConfig_present (UVMID (GenerateTemplateConfig order w2)));
      [cbn; eauto|done|exact Hid|exact Hv]. }
  destruct Hsave as (registry' & -> & Hids).
  cbn [reply_of_outcome host trace st_host st_registry app].
  eexists. split; [reflexivity|]. by cbn.
Qed.

End ShimProofs.

(** ** Attaching to a cloned container *)

Section CloneContainerProofs.
Context {W C : Type} `{uvm_container.GuestConnection W C}.
Import uvm_container.

(** X13: without a guest connection [CloneContainer] fails without
    touching the host; with one it returns the container the connection
    returned, or an error whose text names the container id and carries the
    text of the connection's error. *)
Theorem CloneContainer_outcome (id : string) (w : W) :
  exists r w',
    CloneContainer id w = (Returned r, w') /\
    match r with
    | Ok c => gc_connected w = true /\ gc_CloneContainer id w = (Ok c, w')
    | Err e =>
        (gc_connected w = false /\ w' = w /\
         e = ErrorString "clone container cannot work without external GCS connection")
        \/
        (gc_connected w = true /\
         exists cause, gc_CloneContainer id w = (Err cause, w') /\
           Error e = "failed to clone container " +:+ id +:+ ": " +:+ Error cause)
    end.
Proof.
  unfold CloneContainer, bind, get, ret.
  destruct (gc_connected w) eqn:Hgc; cbn [negb].
  - destruct (gc_CloneContainer id w) as [[c|cause] w'] eqn:Hcall.
    + eexists _, _. split; [reflexivity|]. done.
    + eexists _, _. split; [reflexivity|]. right. split; [done|]. by exists cause.
  - eexists _, _. split; [reflexivity|]. by left.
Qed.

End CloneContainerProofs.

(** ** Creating a network namespace *)

Section CreateNamespaceProofs.
Context {W : Type} `{hcsoci_create.NamespaceService W}.
Import hcsoci_create observe_more.

Lemma createNetworkNamespace_range_events (netID : string) (l : list string) :
  forall (endpoints : list string) (s : scope W),
  exists r w new,
    createNetworkNamespace_range netID l endpoints s
    = (Returned r, mkScope w (events s ++ new) (at_resources s)) /\
    match r with
    | Ok eps => eps = endpoints ++ l /\ new = endpoints_added netID l
    | Err e =>
        exists done ep rest,
          l = done ++ ep :: rest /\
          new = endpoints_added netID done ++ [AddNamespaceEndpoint netID ep (Some e)]
    end.
Proof.
  induction l as [|ep l IH]; intros endpoints [w0 evs res].
  - exists (Ok endpoints), w0, []. cbn. by rewrite !app_nil_r.
  - cbn [createNetworkNamespace_range]. unfold bind, call_AddNamespaceEndpoint at 1.
    cbn [service events at_resources].
    destruct (hns_AddNamespaceEndpoint netID ep w0) as [[e|] w1].
    + exists (Err e), w1, [AddNamespaceEndpoint netID ep (Some e)].
      split; [done|]. by exists [], ep, l.
    + destruct (IH (endpoints ++ [ep])
                   (mkScope w1 (evs ++ [AddNamespaceEndpoint netID ep None]) res))
        as (r & w & new & -> & Hr).
      exists r, w, (AddNamespaceEndpoint netID ep None :: new).
      cbn [events at_resources]. rewrite <- app_assoc. split; [done|].
      destruct r as [eps|e].
      * destruct Hr as [-> ->]. by rewrite <- app_assoc.
      * destruct Hr as (done & ep' & rest & -> & ->).
        by exists (ep :: done), ep', rest.
Qed.

(** Every way [createNetworkNamespace] ends when no pointer on the path to
    the endpoint list is nil. *)
Lemma createNetworkNamespace_cases (coi : createOptionsInternal) (l : list string)
  (s : scope W) :
  endpoint_list coi = Some l ->
  let old := at_resources s in
  (exists e w,
     createNetworkNamespace coi s
     = (Returned (Some e), mkScope w (events s ++ [CreateNamespace (Err e)]) old)) \/
  (exists e netID done ep rest w,
     l = done ++ ep :: rest /\
     createNetworkNamespace coi s
     = (Returned (Some e),
        mkScope w (events s ++ CreateNamespace (Ok netID)
                     :: endpoints_added netID done
                     ++ [AddNamespaceEndpoint netID ep (Some e)])
          {| netNS := netID; createdNetNS := true; resources := resources old |})) \/
  (exists netID w,
     createNetworkNamespace coi s
     = (Returned None,
        mkScope w (events s ++ CreateNamespace (Ok netID) :: endpoints_added netID l)
          {| netNS := netID; createdNetNS := true;
             resources := resources old
               ++ [PtrNetworkEndpoints {| EndpointIDs := l; Namespace := netID |}] |})).
Proof.
  destruct coi as [id [[[[[[eps]|]]|]]|]]; try discriminate. intros [= <-].
  destruct s as [w0 evs res]. cbv zeta. cbn [service events at_resources].
  match goal with
  | |- context [createNetworkNamespace ?c ?s0] =>
      destruct (createNetworkNamespace c s0) as [o s'] eqn:Hrun
  end.
  revert Hrun. unfold createNetworkNamespace, bind at 1, call_CreateNamespace.
  cbn [service events at_resources].
  destruct (hns_CreateNamespace w0) as [[netID|e] w1].
  - unfold bind, assign, modify, deref, ret.
    cbn [service events at_resources coi_Spec spec_Windows Network EndpointList
         netNS createdNetNS resources].
    match goal with
    | |- context [createNetworkNamespace_range netID eps [] ?s0] =>
        destruct (createNetworkNamespace_range_events netID eps [] s0)
          as (r & w & new & -> & Hr)
    end.
    cbn [service events at_resources netNS createdNetNS resources].
    rewrite <- app_assoc. destruct r as [got|e].
    + destruct Hr as [-> ->]. intros [= <- <-]. right; right. by exists netID, w.
    + destruct Hr as (done & ep & rest & -> & ->). intros [= <- <-]. right; left.
      by exists e, netID, done, ep, rest, w.
  - intros [= <- <-]. left. by exists e, w1.
Qed.

(** X17: when [createNetworkNamespace] returns nil, it has created one
    namespace and added every endpoint of the list to it, in the order of the
    list; the record behind [resources] names the namespace as created, and
    its resource list has grown at its end by one [NetworkEndpoints] that
    holds the namespace and the endpoints in that order. *)
Theorem createNetworkNamespace_success (coi : createOptionsInternal)
  (l : list string) (s : scope W) :
  endpoint_list coi = Some l ->
  fst (createNetworkNamespace coi s) = Returned None ->
  exists netID w,
    snd (createNetworkNamespace coi s)
    = mkScope w (events s ++ CreateNamespace (Ok netID) :: endpoints_added netID l)
        {| netNS := netID; createdNetNS := true;
           resources := resources (at_resources s)
             ++ [PtrNetworkEndpoints {| EndpointIDs := l; Namespace := netID |}] |}.
Proof.
  intros Hl.
  destruct (createNetworkNamespace_cases coi l s Hl)
    as [(e & w & ->)|[(e & netID & done & ep & rest & w & _ & ->)|(netID & w & ->)]];
    cbn [fst snd]; try discriminate.
  intros _. by exists netID, w.
Qed.

(** X18: when [createNetworkNamespace] returns an error, either the creation
    of the namespace failed, and then no endpoint was added and the record
    behind [resources] is unchanged; or the namespace was created and the
    error is that of the first endpoint that could not be added: the
    endpoints before it stay added, none after it is tried, the record names
    the namespace as created, and its resource list is unchanged, so that no
    [NetworkEndpoints] is recorded for the endpoints that were added. *)
Theorem createNetworkNamespace_failure (coi : createOptionsInternal)
  (l : list string) (s : scope W) (e : error) :
  endpoint_list coi = Some l ->
  fst (createNetworkNamespace coi s) = Returned (Some e) ->
  (exists w,
     snd (createNetworkNamespace coi s)
     = mkScope w (events s ++ [CreateNamespace (Err e)]) (at_resources s)) \/
  (exists netID done ep rest w,
     l = done ++ ep :: rest /\
     snd (createNetworkNamespace coi s)
     = mkScope w (events s ++ CreateNamespace (Ok netID)
                    :: endpoints_added netID done
                    ++ [AddNamespaceEndpoint netID ep (Some e)])
         {| netNS := netID; createdNetNS := true;
            resources := resources (at_resources s) |}).
Proof.
  intros Hl.
  destruct (createNetworkNamespace_cases coi l s Hl)
    as [(e' & w & ->)|[(e' & netID & done & ep & rest & w & Hsplit & ->)|(netID & w & ->)]];
    cbn [fst snd]; try discriminate; intros [= ->].
  - left. by exists w.
  - right. by exists netID, done, ep, rest, w.
Qed.

End CreateNamespaceProofs.

(** ** The theorems at concrete inputs *)

Section Witnesses.
Import scripted regstate clone.

Lemma SaveTemplateConfig_second_call_panics_witness :
  SaveTemplateConfig config123 empty_registry = (Returned None, saved123) /\
  UVMID config123 = UVMID config123 /\
  exists s2,
    SaveTemplateConfig config123 saved123 = (Panicked nil_dereference, s2) /\
    ids s2 = ids saved123.
Proof.
  split; [vm_compute; reflexivity|]. split; [reflexivity|].
  apply (SaveTemplateConfig_second_call_panics config123 config123 empty_registry);
    [vm_compute; reflexivity | reflexivity].
Defined.

Lemma FetchTemplateConfig_unknown_ID_witness :
  ids saved123 !! "vm-124" = None /\
  open_benign saved123 /\
  exists e s',
    FetchTemplateConfig "vm-124" saved123 = (Returned (Err e), s') /\
    e = match open_error saved123 with
        | Some e0 => e0
        | None => NotFoundError "vm-124"
        end /\
    IsNotFoundError (Some e) = true /\
    (forall encodedBytes, decodeTemplateConfig encodedBytes <> Err e) /\
    ids s' = ids saved123.
Proof.
  split; [vm_compute; reflexivity|]. split; [exact I|].
  apply (FetchTemplateConfig_unknown_ID "vm-124" saved123);
    [vm_compute; reflexivity | exact I].
Defined.

Lemma RemoveSavedTemplateConfig_idempotent_witness :
  (ids empty_registry !! "vm-123" = None /\ open_benign empty_registry) /\
  exists s',
    RemoveSavedTemplateConfig "vm-123" empty_registry = (Returned None, s') /\
    ids s' = ids empty_registry.
Proof.
  split; [split; [reflexivity | exact I]|].
  apply (RemoveSavedTemplateConfig_idempotent "vm-123" empty_registry).
  left. split; [reflexivity | exact I].
Defined.



Import scripted_more.

Lemma SaveTemplateConfig_fresh_witness :
  (open_error empty_registry = None /\ ids empty_registry !! UVMID config123 = None) /\
  exists encodedBytes s',
    encodeTemplateConfig config123 = Ok encodedBytes /\
    SaveTemplateConfig config123 empty_registry = (Returned None, s') /\
    ids s' !! UVMID config123
    = Some {[configKey := (mkPersistedUVMConfig encodedBytes false)]} /\
    (forall other, other <> UVMID config123 ->
                   ids s' !! other = ids empty_registry !! other).
Proof.
  split; [split; reflexivity|].
  apply (SaveTemplateConfig_fresh config123 empty_registry); reflexivity.
Defined.

Lemma FetchTemplateConfig_after_save_witness :
  SaveTemplateConfig config123 empty_registry = (Returned None, saved123) /\
  exists s2,
    FetchTemplateConfig (UVMID config123) saved123 = (Returned (Ok config123), s2) /\
    ids s2 = ids saved123.
Proof.
  split; [vm_compute; reflexivity|].
  apply (FetchTemplateConfig_after_save config123 empty_registry saved123).
  vm_compute; reflexivity.
Defined.

Lemma SaveTemplateConfig_failure_keeps_records_witness :
  fst (SaveTemplateConfig config123 locked_registry) <> Returned None /\
  ids (snd (SaveTemplateConfig config123 locked_registry)) = ids locked_registry.
Proof.
  split; [vm_compute; discriminate|].
  apply (SaveTemplateConfig_failure_keeps_records config123 locked_registry).
  vm_compute; discriminate.
Defined.

Lemma RemoveSavedTemplateConfig_deletes_witness :
  (open_error saved123 = None /\ is_Some (ids saved123 !! "vm-123")) /\
  exists s',
    RemoveSavedTemplateConfig "vm-123" saved123 = (Returned None, s') /\
    ids s' !! "vm-123" = None /\
    (forall other, other <> "vm-123" -> ids s' !! other = ids saved123 !! other).
Proof.
  assert (Hrec : is_Some (ids saved123 !! "vm-123"))
    by (exists {[configKey := record123]}; vm_compute; reflexivity).
  split; [split; [vm_compute; reflexivity | exact Hrec]|].
  apply (RemoveSavedTemplateConfig_deletes "vm-123" saved123);
    [vm_compute; reflexivity | exact Hrec].
Defined.

Lemma SaveTemplateConfig_then_remove_witness :
  SaveTemplateConfig config123 empty_registry = (Returned None, saved123) /\
  exists s2 s3 s4,
    RemoveSavedTemplateConfig (UVMID config123) saved123 = (Returned None, s2) /\
    ids s2 = ids empty_registry /\
    FetchTemplateConfig (UVMID config123) s2
    = (Returned (Err (NotFoundError (UVMID config123))), s3) /\
    SaveTemplateConfig config123 s3 = (Returned None, s4).
Proof.
  split; [vm_compute; reflexivity|].
  apply (SaveTemplateConfig_then_remove config123 empty_registry saved123).
  vm_compute; reflexivity.
Defined.

Lemma FetchTemplateConfig_not_found_iff_witness :
  open_error saved123 = None /\
  ((exists id, fst (FetchTemplateConfig "vm-124" saved123)
               = Returned (Err (NotFoundError id)))
   <-> ids saved123 !! "vm-124" = None).
Proof.
  split; [vm_compute; reflexivity|].
  apply (FetchTemplateConfig_not_found_iff "vm-124" saved123).
  vm_compute; reflexivity.
Defined.

Lemma storePersistedUVMConfig_twice_witness :
  (open_error empty_registry = None /\ ids empty_registry !! "vm-123" = None /\
   Stored draft = false) /\
  exists puc' s1 s2,
    storePersistedUVMConfig "vm-123" draft empty_registry = (Returned (None, puc'), s1) /\
    Stored puc' = true /\ RawData puc' = RawData draft /\
    storePersistedUVMConfig "vm-123" puc' s1 = (Returned (None, puc'), s2) /\
    ids s2 !! "vm-123" = Some {[configKey := puc']} /\
    (exists e s3, storePersistedUVMConfig "vm-123" draft s1 = (Returned (Some e, draft), s3) /\
                  ids s3 = ids s1).
Proof.
  split; [repeat split; reflexivity|].
  apply (storePersistedUVMConfig_twice "vm-123" draft empty_registry); reflexivity.
Defined.

Lemma loadPersistedUVMConfig_after_store_witness :
  let stored := storePersistedUVMConfig "vm-123" draft empty_registry in
  stored = (Returned (None, mkPersistedUVMConfig [x01; x02; x03] true), snd stored) /\
  exists v s2,
    loadPersistedUVMConfig "vm-123" (snd stored) = (Returned (Ok v), s2) /\
    RawData v = RawData draft /\ ids s2 = ids (snd stored).
Proof.
  cbv zeta. split; [vm_compute; reflexivity|].
  apply (loadPersistedUVMConfig_after_store "vm-123" draft
           (mkPersistedUVMConfig [x01; x02; x03] true) empty_registry).
  vm_compute; reflexivity.
Defined.

Lemma createNetworkNamespace_success_witness :
  (hcsoci_create.endpoint_list two_endpoints = Some ["ep-1"; "ep-2"] /\
   fst (hcsoci_create.createNetworkNamespace two_endpoints (creating []))
   = Returned None) /\
  exists netID w,
    snd (hcsoci_create.createNetworkNamespace two_endpoints (creating []))
    = hcsoci_create.mkScope w
        (hcsoci_create.events (creating [])
         ++ hcsoci_create.CreateNamespace (Ok netID)
            :: observe_more.endpoints_added netID ["ep-1"; "ep-2"])
        {| hcsoci_create.netNS := netID;
           hcsoci_create.createdNetNS := true;
           hcsoci_create.resources :=
             hcsoci_create.resources (hcsoci_create.at_resources (creating []))
             ++ [hcsoci_create.PtrNetworkEndpoints
                   {| hcsoci_create.EndpointIDs := ["ep-1"; "ep-2"];
                      hcsoci_create.Namespace := netID |}] |}.
Proof.
  split; [split; vm_compute; reflexivity|].
  apply (createNetworkNamespace_success two_endpoints ["ep-1"; "ep-2"] (creating []));
    vm_compute; reflexivity.
Defined.

Lemma createNetworkNamespace_failure_witness :
  let run := hcsoci_create.createNetworkNamespace two_endpoints (creating ["ep-2"]) in
  let e := ErrorString "cannot add ep-2" in
  (hcsoci_create.endpoint_list two_endpoints = Some ["ep-1"; "ep-2"] /\
   fst run = Returned (Some e)) /\
  ((exists w,
      snd run
      = hcsoci_create.mkScope w
          (hcsoci_create.events (creating ["ep-2"])
           ++ [hcsoci_create.CreateNamespace (Err e)])
          (hcsoci_create.at_resources (creating ["ep-2"]))) \/
   (exists netID done ep rest w,
      ["ep-1"; "ep-2"] = done ++ ep :: rest /\
      snd run
      = hcsoci_create.mkScope w
          (hcsoci_create.events (creating ["ep-2"])
           ++ hcsoci_create.CreateNamespace (Ok netID)
              :: observe_more.endpoints_added netID done
              ++ [hcsoci_create.AddNamespaceEndpoint netID ep (Some e)])
          {| hcsoci_create.netNS := netID;
             hcsoci_create.createdNetNS := true;
             hcsoci_create.resources :=
               hcsoci_create.resources
                 (hcsoci_create.at_resources (creating ["ep-2"])) |})).
Proof.
  cbv zeta. split; [split; vm_compute; reflexivity|].
  apply (createNetworkNamespace_failure two_endpoints ["ep-1"; "ep-2"]
           (creating ["ep-2"]) (ErrorString "cannot add ep-2"));
    vm_compute; reflexivity.
Defined.

Lemma saveAsTemplate_config_fetchable_witness :
  let run := shim.saveAsTemplate order123
               (shim.mkState (mkTraced no_pause []) empty_registry) in
  let s := snd run in
  let w2 := snd (host_CloseGCSConnection (snd (host_RemoveAllNICs no_pause))) in
  (clone_SaveTemplateConfig config123, Succeeded) ∈ trace (shim.st_host s) /\
  fst run
  = Returned (Some (errors_Wrap (ErrorString "Pause failed") "error pausing the VM")) /\
  config123 = GenerateTemplateConfig order123 w2 /\
  ids empty_registry !! ID w2 = None /\
  exists registry',
    FetchTemplateConfig (ID w2) (shim.st_registry s) = (Returned (Ok config123), registry').
Proof.
  assert (Hin : (clone_SaveTemplateConfig config123, Succeeded)
                ∈ trace (shim.st_host
                           (snd (shim.saveAsTemplate order123
                                   (shim.mkState (mkTraced no_pause []) empty_registry))))).
  { vm_compute. do 2 apply list_elem_of_further. apply list_elem_of_here. }
  cbv zeta. split; [exact Hin|]. split; [vm_compute; reflexivity|].
  exact (saveAsTemplate_config_fetchable order123 no_pause empty_registry config123 Hin).
Defined.

Lemma saveAsTemplate_registered_id_panics_witness :
  let w := vm123 [] in
  let w1 := snd (host_RemoveAllNICs w) in
  let w2 := snd (host_CloseGCSConnection w1) in
  (fst (host_RemoveAllNICs w) = None /\
   fst (host_CloseGCSConnection w1) = None /\
   open_error saved123 = None /\
   ids saved123 !! ID w2 = Some {[configKey := record123]} /\
   ({[configKey := record123]} : gmap string persistedUVMConfig) !! configKey
   = Some record123) /\
  exists s,
    shim.saveAsTemplate order123 (shim.mkState (mkTraced w []) saved123)
    = (Panicked nil_dereference, s) /\
    trace (shim.st_host s)
    = [(RemoveAllNICs, Succeeded); (CloseGCSConnection, Succeeded);
       (clone_SaveTemplateConfig (GenerateTemplateConfig order123 w2),
        Crashed nil_dereference)] /\
    host (shim.st_host s) = w2 /\
    ids (shim.st_registry s) = ids saved123.
Proof.
  cbv zeta. split; [repeat split; vm_compute; reflexivity|].
  apply (saveAsTemplate_registered_id_panics order123 (vm123 []) saved123
           {[configKey := record123]} record123); vm_compute; reflexivity.
Defined.

Lemma GenerateTemplateConfig_shares_then_mounts_witness :
  possible_order (vm123 []) order123 /\
  UVMID (GenerateTemplateConfig order123 (vm123 [])) = "vm-123" /\
  Resources (GenerateTemplateConfig order123 (vm123 []))
  = [PtrVSMBShare shareA; PtrSCSIMount mountB].
Proof.
  assert (Hpossible : possible_order (vm123 []) order123)
    by (split; apply (bool_decide_unpack _); vm_compute; exact I).
  split; [exact Hpossible|].
  destruct (GenerateTemplateConfig_shares_then_mounts order123 (vm123 []) Hpossible)
    as (Hid & Hres & _).
  split; [exact Hid|]. rewrite Hres. vm_compute. reflexivity.
Defined.

(** C8, as stated, fails: on a guest with two directory shares the loop over
    the map can take either order of its keys, and the two orders give two
    different resource lists. *)
Lemma GenerateTemplateConfig_share_order_not_stable :
  possible_order vm456 base_first /\
  possible_order vm456 tools_first /\
  Resources (GenerateTemplateConfig base_first vm456)
  = [PtrVSMBShare shareA; PtrVSMBShare shareC] /\
  Resources (GenerateTemplateConfig tools_first vm456)
  = [PtrVSMBShare shareC; PtrVSMBShare shareA] /\
  GenerateTemplateConfig base_first vm456 <> GenerateTemplateConfig tools_first vm456.
Proof.
  split; [split; apply (bool_decide_unpack _); vm_compute; exact I|].
  split; [split; apply (bool_decide_unpack _); vm_compute; exact I|].
  split; [vm_compute; reflexivity|]. split; [vm_compute; reflexivity|].
  vm_compute. discriminate.
Qed.

Lemma SetupNetworkNamespace_guest_visible_id_witness :
  (hcsoci.GetNamespaceEndpoints "ns-real" (mkTraced (vm123 []) [])
   = (Returned (Ok provider_endpoints), mkTraced (vm123 []) endpoint_lookups) /\
   host_GetNamespaceByID "ns-real" (vm123 [])
   = (Ok (hcn.mkHostComputeNamespace "ns-real" 7), vm123 []) /\
   host_AddNetNSRaw (hcn.mkHostComputeNamespace "ns-cloning" 7) (vm123 [])
   = (None, vm123 []) /\
   host_AddEndpointsToNS "ns-cloning" rewritten_endpoints (vm123 []) = (None, vm123 [])) /\
  hcsoci.SetupNetworkNamespace "ns-real" true false (mkTraced (vm123 []) [])
  = (Returned None,
     mkTraced (vm123 [])
       (endpoint_lookups
        ++ [(hcn_GetNamespaceByID "ns-real",
             GotNamespace (hcn.mkHostComputeNamespace "ns-real" 7));
            (AddNetNSRaw (hcn.mkHostComputeNamespace "ns-cloning" 7), Succeeded);
            (AddEndpointsToNS "ns-cloning" rewritten_endpoints, Succeeded)])).
Proof.
  cbv zeta. split; [repeat split; vm_compute; reflexivity|].
  destruct (SetupNetworkNamespace_guest_visible_id (vm123 []) "ns-real")
    as (_ & _ & _ & _ & _ & _ & _ & Hadds & _).
  apply (Hadds true provider_endpoints (mkTraced (vm123 []) endpoint_lookups)
               (hcn.mkHostComputeNamespace "ns-real" 7)
               (vm123 []) (vm123 []) (vm123 []));
    vm_compute; reflexivity.
Defined.

Lemma SetupNetworkNamespace_both_flags_witness :
  (hcsoci.GetNamespaceEndpoints "ns-real" (mkTraced (vm123 []) [])
   = (Returned (Ok provider_endpoints), mkTraced (vm123 []) endpoint_lookups) /\
   host_AddEndpointsToNS "ns-cloning" rewritten_endpoints (vm123 []) = (None, vm123 [])) /\
  hcsoci.SetupNetworkNamespace "ns-real" true true (mkTraced (vm123 []) [])
  = (Returned None,
     mkTraced (vm123 [])
       (endpoint_lookups
        ++ [(AddEndpointsToNS "ns-cloning" rewritten_endpoints, Succeeded)])).
Proof.
  cbv zeta. split; [repeat split; vm_compute; reflexivity|].
  destruct (SetupNetworkNamespace_both_flags (vm123 []) "ns-real")
    as (_ & _ & _ & _ & Hadds & _).
  apply (Hadds provider_endpoints (mkTraced (vm123 []) endpoint_lookups) (vm123 []));
    vm_compute; reflexivity.
Defined.

Lemma saveAsTemplate_sequence_witness :
  let run := shim.saveAsTemplate order123
               (shim.mkState (mkTraced (vm123 []) []) saved123) in
  (open_error saved123 = None /\
   ids saved123 !! "vm-123" = Some {[configKey := record123]} /\
   ({[configKey := record123]} : gmap string persistedUVMConfig) !! configKey
   = Some record123) /\
  fst (SaveTemplateConfig config123 saved123) = Panicked nil_dereference /\
  fst run = Panicked nil_dereference /\
  trace (shim.st_host (snd run))
  = [(RemoveAllNICs, Succeeded); (CloseGCSConnection, Succeeded);
     (clone_SaveTemplateConfig config123, Crashed nil_dereference)].
Proof.
  cbv zeta. split; [repeat split; vm_compute; reflexivity|].
  destruct (saveAsTemplate_sequence order123 (vm123 []) saved123) as [Hrun Hpanic].
  destruct (Hpanic {[configKey := record123]} record123) as [Hsave _];
    [vm_compute; reflexivity..|].
  split; [exact Hsave|]. rewrite Hrun.
  change (fst (SaveTemplateConfig config123 saved123) = Panicked nil_dereference) in Hsave.
  cbn [host_RemoveAllNICs host_CloseGCSConnection script_host fst snd].
  unfold fails. cbn [vm123 sc_failing bool_decide decide_rel fst snd].
  rewrite !bool_decide_eq_false_2 by (apply not_elem_of_nil).
  cbn [fst snd].
  change (GenerateTemplateConfig order123 (vm123 [])) with config123.
  rewrite Hsave. split; reflexivity.
Defined.

End Witnesses.
